(** * Feature transformers of [baseline_transformer.py]

    A shallow embedding of the per-patient feature extractors and the
    properties of their windowing, ranking, padding and aggregation.

    The module is Python 2 code: every [transform] returns the result of
    [map] and its consumers index it ([len(X[0])] in
    [MultiDocTfidfTransformer.fit], [np.matrix(transformed_X)] in
    [SexTransformer.transform]), which only a list supports.  Integers are
    therefore unbounded ([Z]) and [/] between two integers is floor
    division.

    Dates are [datetime] values and are modelled by the number of seconds
    since a fixed epoch; a [timedelta] is the difference of two of them and
    [total_seconds] is that difference. *)

From Stdlib Require Import ZArith QArith List String Ascii Lia Sorted
  Permutation.
From stdpp Require Import gmap strings list sorting pretty.

Local Open Scope Z_scope.

(** ** Python values and exceptions *)

Inductive exn : Type :=
| IndexError
| NotFittedError.

Inductive result (A : Type) : Type :=
| Ok (a : A)
| Raise (e : exn).

Arguments Ok {A} a.
Arguments Raise {A} e.

Global Instance result_ret : MRet result := fun _ a => Ok a.

Global Instance result_bind : MBind result := fun _ _ k r =>
  match r with
  | Ok a => k a
  | Raise e => Raise e
  end.

(** [l[i]] for a non-negative index. *)
Definition py_index {A : Type} (l : list A) (i : nat) : result A :=
  match l !! i with
  | Some a => Ok a
  | None => Raise IndexError
  end.

(** [l[:k]]: a negative bound counts from the end of the list. *)
Definition py_slice_to {A : Type} (l : list A) (k : Z) : list A :=
  if 0 <=? k then take (Z.to_nat k) l
  else take (Z.to_nat (Z.of_nat (length l) + k)) l.

(** [l[-k:]] for a positive literal [k]. *)
Definition py_slice_last {A : Type} (l : list A) (k : nat) : list A :=
  drop (length l - k)%nat l.

(** [range(n)] runs [max n 0] times. *)
Definition py_range_len (n : Z) : nat := Z.to_nat n.

(** [a / b] on two integers (floor division) for a positive divisor. *)
Definition py_div (a b : Z) : Z := a / b.

(** [sep.join(l)]. *)
Definition py_join (sep : string) (l : list string) : string :=
  String.concat sep l.

Definition nl : ascii := Ascii.ascii_of_nat 10.
Definition nlnl : string := String nl (String nl EmptyString).

(** ** Data model *)

(** A note document as the loader yields it: [doc_date] is the raw text
    stored under the note type's date key, [free_text] the note body. *)
Record Doc : Type := {
  doc_date : string;
  free_text : string
}.

(** A patient record: note type to the list of documents of that type. *)
Abbreviation Person := (gmap string (list Doc)).

(** An encounter tuple as [get_encounters] yields it; field [k] is
    [enc[k]]. *)
Record Encounter : Type := {
  enc0 : Z;        (* admission date *)
  enc1 : string;   (* 'Inpatient' or 'Outpatient' *)
  enc2 : Z;        (* not read *)
  enc3 : Z;        (* length of stay *)
  enc4 : Z         (* number of extra diagnoses *)
}.

(** [24 * 60 * 60 * (365.0 / 12)]: one twelfth of a 365-day year, in
    seconds. *)
Definition sec_per_month : Z := 24 * 60 * 60 * 365 / 12.

Definition total_seconds (d : Z) : Z := d.

(** Truth value of [look_back_months]: [None] and [0] are false. *)
Definition truthy_months (m : option Z) : bool :=
  match m with
  | None => false
  | Some n => negb (n =? 0)
  end.

(** Comparison of the tuples [(operation_date - date, i)] that
    [time_key_pairs.sort()] uses: first component, then second. *)
Definition pair_leb (a b : Z * nat) : bool :=
  (a.1 <? b.1) || ((a.1 =? b.1) && (a.2 <=? b.2)%nat).

Definition pair_le (a b : Z * nat) : Prop := pair_leb a b = true.

Global Instance pair_le_dec (a b : Z * nat) : Decision (pair_le a b) :=
  bool_eq_dec (pair_leb a b) true.

(** [l.sort()] on a list of such tuples. *)
Definition py_sort (l : list (Z * nat)) : list (Z * nat) :=
  merge_sort pair_le l.

(** A value of the dictionary of latest lab values: the parsed number or
    the raw text. *)
Inductive lab_value (float : Type) : Type :=
| Number (x : float)
| Text (s : string).

Arguments Number {float} x.
Arguments Text {float} s.

(** Truth value of a string: the empty string is false. *)
Definition truthy_str (s : string) : bool :=
  match s with
  | EmptyString => false
  | String _ _ => true
  end.

(** The outcome of a function that may fail on a dictionary access. *)
Inductive outcome (A : Type) : Type :=
| Return (a : A)
| KeyError (key : string).

Arguments Return {A} a.
Arguments KeyError {A} key.

(** A value of the patient record: a text, or the documents of a note
    type. *)
Inductive py_value : Type :=
| PyStr (s : string)
| PyDocs (docs : list Doc).

(** [v == s] for a string literal [s]. *)
Definition py_eq_str (v : py_value) (s : string) : bool :=
  match v with
  | PyStr s' => String.eqb s' s
  | PyDocs _ => false
  end.

Definition crlf : string :=
  String (Ascii.ascii_of_nat 13) (String nl EmptyString).

Section Transformers.

(** Collaborators defined in other modules of the repository
    ([loader], [build_graphs], [extract_data], [structured_data_extractor]). *)
Variable get_patient_by_EMPI : string -> Person.
Variable get_operation_date : Person -> Z.
Variable get_date_key : string -> option string.
Variable parse_date : string -> option Z.
Variable get_encounters : string -> list Encounter.
Variable get_lab_history_before_date :
  string -> Z -> list Z -> gmap string (list string).
Variable get_recent_lab_values : string -> Z -> gmap string (Z * string).

(** Floating point numbers, and [float(s)]: [None] when it raises
    [ValueError]. *)
Variable float : Type.
Variable py_float : string -> option float.

(** [TfidfVectorizer]: its fitted state, the vocabulary of a fitted state,
    and the weight a fitted state gives a vocabulary term in a document.
    [tfidf_fit corpus] is the state [TfidfVectorizer.fit] leaves when it
    returns; on a corpus without any term it raises instead, which is not
    modelled here: a property of a fitted transformer takes the success of
    [fit] as a premise. *)
Variable fitted : Type.
Variable tfidf_fit : list string -> fitted.
Variable vocabulary : fitted -> list string.
Variable tfidf_weight : fitted -> string -> string -> float.

(** ** Note transformers *)

Record GetConcatenatedNotesTransformer : Type := {
  cn_type : string;
  look_back_months : option Z
}.

Record GetLatestNotesTransformer : Type := {
  ln_type : string;
  max_notes : Z
}.

(** *** [GetConcatenatedNotesTransformer.get_concatenated_notes] *)

(** The second test of the loop body: true when the document is skipped
    by [continue]. *)
Definition too_old (lb : option Z) (operation_date date : Z) : bool :=
  match lb with
  | Some m =>
      truthy_months lb &&
      (total_seconds (operation_date - date) >? m * sec_per_month)
  | None => false
  end.

Fixpoint concatenated_loop (lb : option Z) (operation_date : Z)
    (docs : list Doc) (notes : list string) : list string :=
  match docs with
  | [] => notes
  | doc :: rest =>
      match parse_date (doc_date doc) with
      | Some date =>
          if date <? operation_date then
            if too_old lb operation_date date
            then concatenated_loop lb operation_date rest notes
            else concatenated_loop lb operation_date rest
                   (notes ++ [free_text doc])
          else concatenated_loop lb operation_date rest notes
      | None => concatenated_loop lb operation_date rest notes
      end
  end.

Definition get_concatenated_notes (self : GetConcatenatedNotesTransformer)
    (empi : string) : string :=
  let person := get_patient_by_EMPI empi in
  let operation_date := get_operation_date person in
  let date_key := get_date_key (cn_type self) in
  let notes :=
    match person !! cn_type self, date_key with
    | Some docs, Some _ =>
        concatenated_loop (look_back_months self) operation_date docs []
    | _, _ => []
    end in
  py_join nlnl notes.

(** The same loop, recording the documents whose text is appended. *)
Fixpoint concatenated_window (lb : option Z) (operation_date : Z)
    (docs : list Doc) (window : list Doc) : list Doc :=
  match docs with
  | [] => window
  | doc :: rest =>
      match parse_date (doc_date doc) with
      | Some date =>
          if date <? operation_date then
            if too_old lb operation_date date
            then concatenated_window lb operation_date rest window
            else concatenated_window lb operation_date rest
                   (window ++ [doc])
          else concatenated_window lb operation_date rest window
      | None => concatenated_window lb operation_date rest window
      end
  end.

(** *** [GetLatestNotesTransformer.get_latest_concatenated_notes] *)

Fixpoint time_key_loop (operation_date : Z) (docs : list Doc) (i : nat)
    (time_key_pairs : list (Z * nat)) : list (Z * nat) :=
  match docs with
  | [] => time_key_pairs
  | doc :: rest =>
      match parse_date (doc_date doc) with
      | Some date =>
          if date <? operation_date
          then time_key_loop operation_date rest (S i)
                 (time_key_pairs ++ [(operation_date - date, i)])
          else time_key_loop operation_date rest (S i) time_key_pairs
      | None => time_key_loop operation_date rest (S i) time_key_pairs
      end
  end.

Fixpoint append_notes (docs : list Doc) (pairs : list (Z * nat))
    (notes : list string) : result (list string) :=
  match pairs with
  | [] => Ok notes
  | (_, key) :: rest =>
      doc ← py_index docs key;
      append_notes docs rest (notes ++ [free_text doc])
  end.

(** The list [time_key_pairs] after [sort()], the ranked order. *)
Definition ranked_pairs (operation_date : Z) (docs : list Doc)
    : list (Z * nat) :=
  py_sort (time_key_loop operation_date docs 0 []).

Definition pad_notes (self : GetLatestNotesTransformer)
    (notes : list string) : list string :=
  if Z.of_nat (length notes) <? max_notes self then
    let delta := max_notes self - Z.of_nat (length notes) in
    notes ++ replicate (py_range_len delta) EmptyString
  else notes.

Definition get_latest_concatenated_notes (self : GetLatestNotesTransformer)
    (empi : string) : result (list string) :=
  let person := get_patient_by_EMPI empi in
  let operation_date := get_operation_date person in
  let date_key := get_date_key (ln_type self) in
  notes ←
    match person !! ln_type self, date_key with
    | Some docs, Some _ =>
        let time_key_pairs := ranked_pairs operation_date docs in
        append_notes docs (py_slice_to time_key_pairs (max_notes self)) []
    | _, _ => Ok []
    end;
  Ok (pad_notes self notes).

(** ** Encounter features *)

Record GetEncountersFeaturesTransformer : Type := {
  max_encounters : Z;
  only_general : bool
}.

(** The four variables the loop over [tracked_encounters] updates. *)
Record enc_state : Type := {
  features : list Z;
  inpatients : Z;
  total_LOS : Z;
  total_extra_diagnoses : Z
}.

Definition enc_init : enc_state :=
  {| features := []; inpatients := 0; total_LOS := 0;
     total_extra_diagnoses := 0 |}.

(** One iteration of [for enc in tracked_encounters]. *)
Definition enc_step (st : enc_state) (enc : Encounter) : enc_state :=
  let st1 :=
    if String.eqb (enc1 enc) "Inpatient"
    then {| features := features st ++ [1];
            inpatients := inpatients st + 1;
            total_LOS := total_LOS st;
            total_extra_diagnoses := total_extra_diagnoses st |}
    else {| features := features st ++ [0];
            inpatients := inpatients st;
            total_LOS := total_LOS st;
            total_extra_diagnoses := total_extra_diagnoses st |} in
  let st2 :=
    if enc3 enc >? 1
    then {| features := features st1 ++ [enc3 enc];
            inpatients := inpatients st1;
            total_LOS := total_LOS st1 + enc3 enc;
            total_extra_diagnoses := total_extra_diagnoses st1 |}
    else {| features := features st1 ++ [0];
            inpatients := inpatients st1;
            total_LOS := total_LOS st1;
            total_extra_diagnoses := total_extra_diagnoses st1 |} in
  {| features := features st2 ++ [enc4 enc];
     inpatients := inpatients st2;
     total_LOS := total_LOS st2;
     total_extra_diagnoses := total_extra_diagnoses st2 + enc4 enc |}.

(** [for enc in encounters: if enc[0] < operation_date: operation_index += 1
    else: break]. *)
Fixpoint operation_index_loop (operation_date : Z)
    (encounters : list Encounter) (operation_index : Z) : Z :=
  match encounters with
  | [] => operation_index
  | enc :: rest =>
      if enc0 enc <? operation_date
      then operation_index_loop operation_date rest (operation_index + 1)
      else operation_index
  end.

(** The zero filling: [delta] rounds of three appended zeros. *)
Definition zero_fill (delta : Z) : list Z :=
  concat (replicate (py_range_len delta) (replicate 3 0)).

(** [encounters] after [encounters = encounters[:operation_index]]. *)
Definition encounters_before (empi : string) : list Encounter :=
  let encounters := get_encounters empi in
  let person := get_patient_by_EMPI empi in
  let operation_date := get_operation_date person in
  let operation_index := operation_index_loop operation_date encounters 0 in
  py_slice_to encounters operation_index.

Definition num_tracked_encounters (self : GetEncountersFeaturesTransformer)
    (empi : string) : Z :=
  Z.min (max_encounters self) (Z.of_nat (length (encounters_before empi))).

Definition tracked_encounters (self : GetEncountersFeaturesTransformer)
    (empi : string) : list Encounter :=
  py_slice_to (reverse (encounters_before empi))
    (num_tracked_encounters self empi).

Definition get_encounters_features (self : GetEncountersFeaturesTransformer)
    (empi : string) : list Z :=
  let num_tracked := num_tracked_encounters self empi in
  let tracked := tracked_encounters self empi in
  let st := fold_left enc_step tracked enc_init in
  let features := features st in
  let features :=
    if num_tracked <? max_encounters self
    then features ++ zero_fill (max_encounters self - num_tracked)
    else features in
  let features :=
    if Z.of_nat (length tracked) >? 0
    then features ++ [py_div (inpatients st) (Z.of_nat (length tracked))]
    else features ++ [0] in
  let features :=
    if inpatients st >? 0
    then features ++ [py_div (total_LOS st) (inpatients st)]
    else features ++ [0] in
  let features :=
    if Z.of_nat (length tracked) >? 0
    then features ++
         [py_div (total_extra_diagnoses st) (Z.of_nat (length tracked))]
    else features ++ [0] in
  if only_general self then py_slice_last features 3 else features.

(** ** Tf-idf over several documents *)

Record MultiDocTfidfTransformer : Type := {
  tfidf : option fitted;
  vec_size : Z
}.

(** [__init__] *)
Definition MultiDocTfidfTransformer_init : MultiDocTfidfTransformer :=
  {| tfidf := None; vec_size := 0 |}.

Definition fit (self : MultiDocTfidfTransformer) (X : list (list string))
    : result MultiDocTfidfTransformer :=
  x0 ← py_index X 0;
  Ok {| vec_size := Z.of_nat (length x0);
        tfidf := Some (tfidf_fit (map (py_join nlnl) X)) |}.

(** [self.tfidf.transform(x).toarray()]: one row per document of [x],
    one column per vocabulary term. *)
Definition tfidf_transform (self : MultiDocTfidfTransformer)
    (x : list string) : result (list (list float)) :=
  match tfidf self with
  | None => Raise NotFittedError
  | Some f =>
      Ok (map (fun doc => map (fun term => tfidf_weight f term doc)
                              (vocabulary f)) x)
  end.

(** The function mapped over [X] by [transform]. *)
Definition transform_one (self : MultiDocTfidfTransformer)
    (x : list string) : result (list float) :=
  rows ← tfidf_transform self x;
  Ok (concat rows).

Fixpoint py_map {A B : Type} (f : A -> result B) (l : list A)
    : result (list B) :=
  match l with
  | [] => Ok []
  | a :: rest =>
      b ← f a;
      bs ← py_map f rest;
      Ok (b :: bs)
  end.

Definition transform (self : MultiDocTfidfTransformer)
    (X : list (list string)) : result (list (list float)) :=
  py_map (transform_one self) X.

Definition vocabularySize (self : MultiDocTfidfTransformer) : Z :=
  match tfidf self with
  | Some f => Z.of_nat (length (vocabulary f))
  | None => 0
  end.

(** ** Lab dictionaries *)

Record GetLabsHistoryDictTransformer : Type := {
  time_thresholds_months : list Z
}.

(** [str(n)] on an integer. *)
Definition py_str (n : Z) : string := pretty n.

Definition flag_value (flag expected : string) : Z :=
  if String.eqb flag expected then 1 else 0.

(** The loop [for i in range(len(self.time_thresholds_months))], over the
    indices still to visit. *)
Fixpoint threshold_loop (thresholds : list Z) (lab : string)
    (flags : list string) (indices : list nat) (d : gmap string Z)
    : result (gmap string Z) :=
  match indices with
  | [] => Ok d
  | i :: rest =>
      flag ← py_index flags i;
      t ← py_index thresholds i;
      let d := <[lab +:+ "_H_" +:+ py_str t := flag_value flag "H"]> d in
      flag ← py_index flags i;
      t ← py_index thresholds i;
      let d := <[lab +:+ "_L_" +:+ py_str t := flag_value flag "L"]> d in
      threshold_loop thresholds lab flags rest d
  end.

(** The loop [for lab in lab_history], over the items still to visit. *)
Fixpoint lab_loop (thresholds : list Z)
    (items : list (string * list string)) (d : gmap string Z)
    : result (gmap string Z) :=
  match items with
  | [] => Ok d
  | (lab, flags) :: rest =>
      d ← threshold_loop thresholds lab flags
            (seq 0 (length thresholds)) d;
      lab_loop thresholds rest d
  end.

Definition get_labs_history (self : GetLabsHistoryDictTransformer)
    (empi : string) : result (gmap string Z) :=
  let person := get_patient_by_EMPI empi in
  let operation_date := get_operation_date person in
  let lab_history :=
    get_lab_history_before_date empi operation_date
      (time_thresholds_months self) in
  lab_loop (time_thresholds_months self) (map_to_list lab_history) ∅.

(** One iteration of [for lab in latest_labs]. *)
Definition latest_step (d : gmap string (lab_value float))
    (item : string * (Z * string)) : gmap string (lab_value float) :=
  let '(lab, (_, raw)) := item in
  if truthy_str raw then
    match py_float raw with
    | Some x => <[lab := Number x]> d
    | None => <[lab := Text raw]> d
    end
  else d.

Definition get_latest_lab_values (empi : string)
    : gmap string (lab_value float) :=
  let person := get_patient_by_EMPI empi in
  let operation_date := get_operation_date person in
  let latest_labs := get_recent_lab_values empi operation_date in
  fold_left latest_step (map_to_list latest_labs) ∅.

(** ** The remaining methods *)

(** *** [SexTransformer] *)

(** The patient record of [loader.get_patient_by_EMPI] with all its keys:
    the texts ('Sex', 'Gender', ...) beside the note types. *)
Variable get_patient_record : string -> gmap string py_value.

Definition get_sex (empi : string) : outcome Z :=
  let person := get_patient_record empi in
  match person !! "Sex"%string with
  | Some _ =>
      match person !! "Gender"%string with
      | Some sex => Return (Z.b2z (py_eq_str sex ("Female" +:+ crlf)))
      | None => KeyError "Gender"
      end
  | None => Return 0
  end.

(** *** [get_feature_names] and [transform] of the note and encounter
    transformers *)

Definition GetLatestNotesTransformer_get_feature_names
    (self : GetLatestNotesTransformer) : list string :=
  map (fun i => "latest_note_" +:+ py_str (Z.of_nat i))
    (seq 0 (py_range_len (max_notes self))).

Definition GetLatestNotesTransformer_transform
    (self : GetLatestNotesTransformer) (X : list string)
    : result (list (list string)) :=
  py_map (get_latest_concatenated_notes self) X.

(** [DocumentConcatenatorTransformer.concatenate_notes] *)
Definition concatenate_notes (docs : list string) : string :=
  py_join nlnl docs.

Definition GetEncountersFeaturesTransformer_get_feature_names
    (self : GetEncountersFeaturesTransformer) : list string :=
  flat_map
    (fun i =>
       [ "Inpatient_Outpatient_Enc_" +:+ py_str (Z.of_nat i);
         "LOS_Enc_" +:+ py_str (Z.of_nat i);
         "Num_Extra_Diagnoses_Enc_" +:+ py_str (Z.of_nat i) ])
    (seq 0 (py_range_len (max_encounters self))) ++
  [ "Enc_Inpatient_Ratio"; "Enc_Average_LOS";
    "Enc_Average_Extra_Diagnoses" ]%string.

(** [MultiDocTfidfTransformer.get_feature_names]: the vocabulary, once per
    [i] in [range(self.vec_size)], flattened. *)
Definition MultiDocTfidfTransformer_get_feature_names
    (self : MultiDocTfidfTransformer) : result (list string) :=
  feature_arr ←
    py_map (fun _ : nat =>
              match tfidf self with
              | Some f => Ok (vocabulary f)
              | None => Raise NotFittedError
              end)
      (seq 0 (py_range_len (vec_size self)));
  Ok (concat feature_arr).

(** *** The lab dictionaries of the latest results *)

(** [structured_data_extractor.get_labs_before_date]: three dictionaries of
    counts and the dictionary of the latest result of each test, a tuple
    whose second component is the flag; the first component is not read. *)
Variable latest0 : Type.
Variable get_labs_before_date :
  string -> Z ->
  gmap string Z * gmap string Z * gmap string Z *
  gmap string (latest0 * string).

(** One iteration of [for lab in labs_latest], for the flag ['H'] or
    ['L']. *)
Definition latest_flag_step (mark : string) (d : gmap string Z)
    (item : string * (latest0 * string)) : gmap string Z :=
  let '(lab, (_, flag)) := item in
  if String.eqb flag mark then <[lab := 1]> d else <[lab := 0]> d.

Definition get_labs_latest_high (empi : string) : gmap string Z :=
  let person := get_patient_by_EMPI empi in
  let operation_date := get_operation_date person in
  let labs_latest := (get_labs_before_date empi operation_date).2 in
  fold_left (latest_flag_step "H") (map_to_list labs_latest) ∅.

Definition get_labs_latest_low (empi : string) : gmap string Z :=
  let person := get_patient_by_EMPI empi in
  let operation_date := get_operation_date person in
  let labs_latest := (get_labs_before_date empi operation_date).2 in
  fold_left (latest_flag_step "L") (map_to_list labs_latest) ∅.

(** ** Specification vocabulary *)

(** The events of a note type that carry a date: the documents of the
    patient under [type], when the type has a date key. *)
Definition dated_docs (type : string) (person : Person) : list Doc :=
  match person !! type, get_date_key type with
  | Some docs, Some _ => docs
  | _, _ => []
  end.

(** The date parses and lies strictly before the anchor. *)
Definition before_anchor (anchor : Z) (doc : Doc) : bool :=
  match parse_date (doc_date doc) with
  | Some date => date <? anchor
  | None => false
  end.

(** [anchor - date <= months * (365/12) days], in seconds and cleared of
    the denominator. *)
Definition within_months (months anchor : Z) (doc : Doc) : bool :=
  match parse_date (doc_date doc) with
  | Some date => 12 * (anchor - date) <=? months * 365 * (24 * 60 * 60)
  | None => false
  end.

(** The lookback condition as the specification words it: it applies
    whenever a lookback is given. *)
Definition lookback_stated (lb : option Z) (anchor : Z) (doc : Doc) : bool :=
  match lb with
  | Some months => within_months months anchor doc
  | None => true
  end.

(** The lookback condition with a zero lookback treated as none. *)
Definition lookback_nonzero (lb : option Z) (anchor : Z) (doc : Doc) : bool :=
  match lb with
  | Some months => (months =? 0) || within_months months anchor doc
  | None => true
  end.

(** The text the specification's wording describes for a subject. *)
Definition concatenated_notes_stated (self : GetConcatenatedNotesTransformer)
    (empi : string) : string :=
  let person := get_patient_by_EMPI empi in
  let anchor := get_operation_date person in
  py_join nlnl
    (map free_text
       (List.filter
          (fun doc => before_anchor anchor doc &&
                      lookback_stated (look_back_months self) anchor doc)
          (dated_docs (cn_type self) person))).

(** The documents whose text [get_concatenated_notes] joins. *)
Definition concatenated_notes_window (self : GetConcatenatedNotesTransformer)
    (empi : string) : list Doc :=
  let person := get_patient_by_EMPI empi in
  let operation_date := get_operation_date person in
  concatenated_window (look_back_months self) operation_date
    (dated_docs (cn_type self) person) [].

(** [p] is the tuple of a document of [docs] dated before the anchor: its
    second component is the position of the document in [docs], its first
    the time from the document's date to the anchor. *)
Definition pair_of_event (anchor : Z) (docs : list Doc) (p : Z * nat) : Prop :=
  exists doc date,
    docs !! p.2 = Some doc /\ parse_date (doc_date doc) = Some date /\
    date < anchor /\ p.1 = anchor - date.

(** The texts of the documents a list of tuples points to. *)
Definition texts_of (docs : list Doc) (pairs : list (Z * nat)) : list string :=
  omap (fun p => free_text <$> docs !! p.2) pairs.

(** The texts of the ranked events, closest to the anchor first. *)
Definition ranked_notes (anchor : Z) (docs : list Doc) : list string :=
  texts_of docs (ranked_pairs anchor docs).

(** The tuples whose documents [get_latest_concatenated_notes] returns. *)
Definition latest_notes_window (self : GetLatestNotesTransformer)
    (empi : string) : list (Z * nat) :=
  let person := get_patient_by_EMPI empi in
  let operation_date := get_operation_date person in
  py_slice_to (ranked_pairs operation_date (dated_docs (ln_type self) person))
    (max_notes self).

(** The longest prefix of [encounters] dated before the anchor. *)
Fixpoint before_prefix (anchor : Z) (encounters : list Encounter)
    : list Encounter :=
  match encounters with
  | [] => []
  | enc :: rest =>
      if enc0 enc <? anchor then enc :: before_prefix anchor rest else []
  end.

Definition is_inpatient (enc : Encounter) : bool :=
  String.eqb (enc1 enc) "Inpatient".

(** The three features of one tracked encounter. *)
Definition enc_triple (enc : Encounter) : list Z :=
  [ if is_inpatient enc then 1 else 0;
    if 1 <? enc3 enc then enc3 enc else 0;
    enc4 enc ].

Definition sum_Z (l : list Z) : Z := foldr Z.add 0 l.

(** Number of inpatient encounters of a window. *)
Definition inpatient_count (window : list Encounter) : Z :=
  Z.of_nat (length (List.filter is_inpatient window)).

(** Sum of the lengths of stay greater than one of a window. *)
Definition counted_LOS (window : list Encounter) : Z :=
  sum_Z (map enc3 (List.filter (fun enc => 1 <? enc3 enc) window)).

Definition extra_diagnoses (window : list Encounter) : Z :=
  sum_Z (map enc4 window).

Definition tracked_count (window : list Encounter) : Z :=
  Z.of_nat (length window).

(** The three overall features, as the integer quotients the code
    computes. *)
Definition inpatient_ratio (window : list Encounter) : Z :=
  if 0 <? tracked_count window
  then inpatient_count window / tracked_count window
  else 0.

Definition average_LOS (window : list Encounter) : Z :=
  if 0 <? inpatient_count window
  then counted_LOS window / inpatient_count window
  else 0.

Definition average_extra_diagnoses (window : list Encounter) : Z :=
  if 0 <? tracked_count window
  then extra_diagnoses window / tracked_count window
  else 0.

(** The value [get_latest_lab_values] stores for a raw text. *)
Definition lab_value_of (raw : string) : lab_value float :=
  match py_float raw with
  | Some x => Number x
  | None => Text raw
  end.

Fixpoint has_underscore (s : string) : bool :=
  match s with
  | EmptyString => false
  | String c rest => Ascii.eqb c "_" || has_underscore rest
  end.

(** One assignment [lab_history_transformed[key] = value]. *)
Definition assign (d : gmap string Z) (w : string * Z) : gmap string Z :=
  <[w.1 := w.2]> d.

(** The assignments of iteration [i] of the inner loop of
    [get_labs_history], in program order. *)
Definition threshold_writes (thresholds : list Z) (lab : string)
    (flags : list string) (i : nat) : list (string * Z) :=
  match flags !! i, thresholds !! i with
  | Some flag, Some t =>
      [ (lab +:+ "_H_" +:+ py_str t, flag_value flag "H");
        (lab +:+ "_L_" +:+ py_str t, flag_value flag "L") ]
  | _, _ => []
  end.

Definition lab_writes (thresholds : list Z) (item : string * list string)
    : list (string * Z) :=
  flat_map (threshold_writes thresholds item.1 item.2)
    (seq 0 (length thresholds)).

Definition history_writes (thresholds : list Z)
    (items : list (string * list string)) : list (string * Z) :=
  flat_map (lab_writes thresholds) items.

(** The statement of the specification on the length of a tf-idf output:
    [vocabularySize * vec_size] for every subject. *)
Definition transform_length_stated (X : list (list string))
    (x : list string) : Prop :=
  forall self, fit MultiDocTfidfTransformer_init X = Ok self ->
  exists v, transform_one self x = Ok v /\
    Z.of_nat (length v) = vocabularySize self * vec_size self.

(** The statement of the specification on the latest lab values: every
    test of the lookup has an entry, the parsed number or the raw text. *)
Definition latest_lab_values_stated (empi : string) : Prop :=
  let anchor := get_operation_date (get_patient_by_EMPI empi) in
  forall lab x raw,
    get_recent_lab_values empi anchor !! lab = Some (x, raw) ->
    get_latest_lab_values empi !! lab = Some (lab_value_of raw).

(** ** A sample patient *)

(** Dates written as a day number; an operation on day 200. *)
Fixpoint digits_value (s : string) (acc : Z) : option Z :=
  match s with
  | EmptyString => Some acc
  | String c rest =>
      match Ascii.is_nat c with
      | Some d => digits_value rest (10 * acc + Z.of_nat d)
      | None => None
      end
  end.

Definition number_value (s : string) : option Z :=
  match s with
  | EmptyString => None
  | String _ _ => digits_value s 0
  end.

Definition day : Z := 24 * 60 * 60.

Definition sample_parse_date (s : string) : option Z :=
  n ← number_value s; Some (n * day).

Definition sample_date_key (type : string) : option string :=
  if String.eqb type "Car" then Some "Report_Date_Time"%string else None.

Definition sample_person : Person :=
  {[ "Car"%string :=
       [ {| doc_date := "100"; free_text := "first" |};
         {| doc_date := "n/a"; free_text := "undated" |};
         {| doc_date := "190"; free_text := "second" |};
         {| doc_date := "190"; free_text := "third" |};
         {| doc_date := "250"; free_text := "late" |} ] ]}.

Definition sample_loader (empi : string) : Person := sample_person.

Definition sample_operation_date (person : Person) : Z := 200 * day.

Definition sample_encounters (empi : string) : list Encounter :=
  [ {| enc0 := 100 * day; enc1 := "Outpatient"; enc2 := 0; enc3 := 0;
       enc4 := 1 |};
    {| enc0 := 150 * day; enc1 := "Inpatient"; enc2 := 0; enc3 := 4;
       enc4 := 2 |};
    {| enc0 := 180 * day; enc1 := "Outpatient"; enc2 := 0; enc3 := 1;
       enc4 := 0 |};
    {| enc0 := 190 * day; enc1 := "Inpatient"; enc2 := 0; enc3 := 3;
       enc4 := 3 |};
    {| enc0 := 195 * day; enc1 := "Inpatient"; enc2 := 0; enc3 := 1;
       enc4 := 1 |};
    {| enc0 := 210 * day; enc1 := "Inpatient"; enc2 := 0; enc3 := 9;
       enc4 := 0 |} ].

Definition sample_lab_history (empi : string) (anchor : Z)
    (thresholds : list Z) : gmap string (list string) :=
  {[ "NA"%string := ["H"; "N"]%string; "K"%string := ["L"; "L"]%string ]}.

Definition sample_recent_labs (empi : string) (anchor : Z)
    : gmap string (Z * string) :=
  {[ "HGB"%string := (199 * day, "12.5"%string);
     "CULT"%string := (198 * day, "Positive"%string);
     "NA"%string := (197 * day, EmptyString) ]}.

(** A stand-in for [float] on plain decimal literals, with exact
    values. *)
Definition sample_float (s : string) : option Q :=
  match String.index 0 "." s with
  | None => n ← number_value s; Some (inject_Z n)
  | Some k =>
      let whole := String.substring 0 k s in
      let frac := String.substring (S k) (String.length s - S k) s in
      n ← number_value whole;
      m ← number_value frac;
      let scale := 10 ^ Z.of_nat (String.length frac) in
      Some (Qred (Qmake (n * scale + m) (Z.to_pos scale)))
  end.

(** A stand-in for [TfidfVectorizer]: the vocabulary is the list of
    distinct words of the corpus, the weight of a term in a document is
    the number of its occurrences. *)
Definition sample_tfidf_fit (corpus : list string) : list string :=
  remove_dups (corpus ≫= String.words).

Definition sample_vocabulary (f : list string) : list string := f.

Definition sample_weight (f : list string) (term doc : string) : Z :=
  Z.of_nat (length (List.filter (String.eqb term) (String.words doc))).

(** Encounters out of date order: one after the operation, then one
    before it. *)
Definition sample_unsorted_encounters (empi : string) : list Encounter :=
  [ {| enc0 := 100 * day; enc1 := "Outpatient"; enc2 := 0; enc3 := 0;
       enc4 := 1 |};
    {| enc0 := 210 * day; enc1 := "Inpatient"; enc2 := 0; enc3 := 9;
       enc4 := 0 |};
    {| enc0 := 190 * day; enc1 := "Inpatient"; enc2 := 0; enc3 := 3;
       enc4 := 3 |} ].

(** A record whose gender text lacks the line ending, and a record with
    ['Sex'] only. *)
Definition sample_record (empi : string) : gmap string py_value :=
  if String.eqb empi "E1"
  then {[ "Sex"%string := PyStr "F"; "Gender"%string := PyStr "Female" ]}
  else {[ "Sex"%string := PyStr "F" ]}.

(** * Properties *)

(** ** Selection of notes *)

Lemma sec_per_month_exact : 12 * sec_per_month = 365 * (24 * 60 * 60).
Proof. reflexivity. Qed.

Lemma too_old_spec lb anchor doc date :
  parse_date (doc_date doc) = Some date ->
  too_old lb anchor date = negb (lookback_nonzero lb anchor doc).
Proof.
  intros Hd. unfold too_old, lookback_nonzero, within_months, total_seconds.
  rewrite Hd. destruct lb as [m|]; [|done]. simpl.
  pose proof sec_per_month_exact as Hs.
  destruct (Z.eqb_spec m 0) as [->|Hm]; simpl; [done|].
  rewrite Z.gtb_ltb.
  destruct (Z.ltb_spec (m * sec_per_month) (anchor - date)),
           (Z.leb_spec (12 * (anchor - date)) (m * 365 * (24 * 60 * 60)));
    simpl; try done; lia.
Qed.

Lemma concatenated_window_filter lb anchor docs window :
  concatenated_window lb anchor docs window =
  window ++ List.filter
    (fun doc => before_anchor anchor doc && lookback_nonzero lb anchor doc)
    docs.
Proof.
  revert window. induction docs as [|doc rest IH]; intros window; simpl.
  - by rewrite app_nil_r.
  - unfold before_anchor at 1.
    destruct (parse_date (doc_date doc)) as [date|] eqn:Hd; simpl; [|apply IH].
    destruct (date <? anchor) eqn:Hlt; simpl; [|apply IH].
    rewrite (too_old_spec lb anchor doc date Hd).
    destruct (lookback_nonzero lb anchor doc); simpl; rewrite IH; [|done].
    by rewrite <- app_assoc.
Qed.

Lemma concatenated_loop_window lb anchor docs window :
  concatenated_loop lb anchor docs (map free_text window) =
  map free_text (concatenated_window lb anchor docs window).
Proof.
  revert window. induction docs as [|doc rest IH]; intros window; simpl; [done|].
  destruct (parse_date (doc_date doc)) as [date|]; [|apply IH].
  destruct (date <? anchor); [|apply IH].
  destruct (too_old lb anchor date); [apply IH|].
  rewrite <- IH. by rewrite map_app.
Qed.

Lemma get_concatenated_notes_window self empi :
  get_concatenated_notes self empi =
  py_join nlnl (map free_text (concatenated_notes_window self empi)).
Proof.
  unfold get_concatenated_notes, concatenated_notes_window, dated_docs.
  f_equal.
  destruct (get_patient_by_EMPI empi !! cn_type self) as [docs|]; [|done].
  destruct (get_date_key (cn_type self)); [|done].
  apply (concatenated_loop_window _ _ docs []).
Qed.

(** C2 (amended).  [get_concatenated_notes] returns, joined by a blank line
    and in record order, the [free_text] of exactly those documents of the
    configured type whose date parses, is strictly before the operation
    date and, when [look_back_months] is given and is not zero, is at most
    [look_back_months * (365/12)] days before it; documents whose date
    does not parse are left out. *)
Theorem get_concatenated_notes_spec (self : GetConcatenatedNotesTransformer)
    (empi : string) :
  let person := get_patient_by_EMPI empi in
  let anchor := get_operation_date person in
  get_concatenated_notes self empi =
  py_join nlnl
    (map free_text
       (List.filter
          (fun doc => before_anchor anchor doc &&
                      lookback_nonzero (look_back_months self) anchor doc)
          (dated_docs (cn_type self) person))).
Proof.
  intros person anchor. rewrite get_concatenated_notes_window.
  unfold concatenated_notes_window.
  by rewrite concatenated_window_filter.
Qed.

(** C10.  A false [look_back_months] ([None] or [0]) puts no bound on the
    age of a note: every note of the configured type dated before the
    operation is joined, and a lookback of [0] gives the same text as no
    lookback. *)
Theorem zero_lookback_is_no_lookback (self : GetConcatenatedNotesTransformer)
    (empi : string) :
  truthy_months (look_back_months self) = false ->
  let person := get_patient_by_EMPI empi in
  let anchor := get_operation_date person in
  get_concatenated_notes self empi =
    py_join nlnl
      (map free_text
         (List.filter (before_anchor anchor)
            (dated_docs (cn_type self) person))) /\
  get_concatenated_notes self empi =
    get_concatenated_notes
      {| cn_type := cn_type self; look_back_months := None |} empi.
Proof.
  intros Hf person anchor.
  assert (forall doc, lookback_nonzero (look_back_months self) anchor doc = true)
    as Hall.
  { intros doc. unfold lookback_nonzero.
    destruct (look_back_months self) as [m|]; [|done].
    simpl in Hf. apply negb_false_iff in Hf. by rewrite Hf. }
  rewrite !get_concatenated_notes_window. unfold concatenated_notes_window.
  rewrite !concatenated_window_filter. simpl. fold person anchor.
  split; do 2 f_equal; apply filter_ext; intros doc;
    rewrite ?Hall; by rewrite andb_true_r.
Qed.

(** ** Ranking of notes *)

Lemma pair_le_iff (a b : Z * nat) :
  pair_le a b <-> a.1 < b.1 \/ (a.1 = b.1 /\ (a.2 <= b.2)%nat).
Proof.
  unfold pair_le, pair_leb.
  rewrite orb_true_iff, andb_true_iff, Z.ltb_lt, Z.eqb_eq, Nat.leb_le.
  tauto.
Qed.

Global Instance pair_le_total : Total pair_le.
Proof. intros a b. rewrite !pair_le_iff. lia. Qed.

Global Instance pair_le_trans : Transitive pair_le.
Proof. intros a b c. rewrite !pair_le_iff. lia. Qed.

Global Instance pair_le_antisymm : AntiSymm (=) pair_le.
Proof.
  intros [t1 k1] [t2 k2]. rewrite !pair_le_iff. simpl.
  intros ? ?. f_equal; lia.
Qed.

Lemma py_sort_sorted l : StronglySorted pair_le (py_sort l).
Proof. apply StronglySorted_merge_sort; apply _. Qed.

Lemma py_sort_perm l : py_sort l ≡ₚ l.
Proof. apply merge_sort_Permutation. Qed.

(** The order on the tuples is total and antisymmetric, so the sorted list
    is the same whatever algorithm [sort()] runs. *)
Lemma py_sort_unique l l' :
  l' ≡ₚ l -> Sorted pair_le l' -> l' = py_sort l.
Proof.
  intros Hp Hs. apply (Sorted_unique pair_le); [done| |].
  - apply Sorted_merge_sort; apply _.
  - by rewrite py_sort_perm.
Qed.

Lemma time_key_loop_app anchor docs i acc :
  time_key_loop anchor docs i acc = acc ++ time_key_loop anchor docs i [].
Proof.
  revert i acc. induction docs as [|doc rest IH]; intros i acc; simpl.
  - by rewrite app_nil_r.
  - destruct (parse_date (doc_date doc)) as [date|]; [|apply IH].
    destruct (date <? anchor); [|apply IH].
    rewrite (IH (S i) (acc ++ _)), (IH (S i) [_]).
    by rewrite <- app_assoc.
Qed.

Lemma time_key_loop_events anchor docs i :
  Forall (fun p => (i <= p.2)%nat /\
            exists doc date,
              docs !! (p.2 - i)%nat = Some doc /\
              parse_date (doc_date doc) = Some date /\
              date < anchor /\ p.1 = anchor - date)
    (time_key_loop anchor docs i []).
Proof.
  revert i. induction docs as [|doc rest IH]; intros i; simpl; [constructor|].
  assert (Forall (fun p => (i <= p.2)%nat /\
            exists doc' date,
              (doc :: rest) !! (p.2 - i)%nat = Some doc' /\
              parse_date (doc_date doc') = Some date /\
              date < anchor /\ p.1 = anchor - date)
            (time_key_loop anchor rest (S i) [])) as Hrest.
  { eapply Forall_impl; [apply (IH (S i))|].
    intros [t k]; simpl. intros [Hle (doc' & date & Hl & Hp & Hlt & Ht)].
    split; [lia|]. exists doc', date. split_and!; try done.
    replace (k - i)%nat with (S (k - S i)) by lia. done. }
  destruct (parse_date (doc_date doc)) as [date|] eqn:Hd; [|done].
  destruct (Z.ltb_spec date anchor); [|done].
  rewrite time_key_loop_app. simpl. constructor; [|done].
  simpl. split; [lia|]. exists doc, date.
  rewrite Nat.sub_diag. done.
Qed.


Lemma time_key_pairs_events anchor docs :
  Forall (pair_of_event anchor docs) (time_key_loop anchor docs 0 []).
Proof.
  eapply Forall_impl; [apply time_key_loop_events|].
  intros p [_ H]. by rewrite Nat.sub_0_r in H.
Qed.

Lemma ranked_pairs_events anchor docs :
  Forall (pair_of_event anchor docs) (ranked_pairs anchor docs).
Proof.
  unfold ranked_pairs. rewrite py_sort_perm. apply time_key_pairs_events.
Qed.






(** ** The window of encounters *)

Lemma py_slice_to_nonneg {A} (l : list A) (k : Z) :
  0 <= k -> py_slice_to l k = take (Z.to_nat k) l.
Proof.
  intros Hk. unfold py_slice_to.
  by destruct (Z.leb_spec 0 k); [|lia].
Qed.

Lemma Forall_py_slice_to {A} (P : A -> Prop) (l : list A) (k : Z) :
  Forall P l -> Forall P (py_slice_to l k).
Proof. intros H. unfold py_slice_to. destruct (0 <=? k); by apply Forall_take. Qed.

Lemma operation_index_loop_prefix anchor encounters k :
  operation_index_loop anchor encounters k =
  k + Z.of_nat (length (before_prefix anchor encounters)).
Proof.
  revert k. induction encounters as [|enc rest IH]; intros k; simpl; [lia|].
  destruct (enc0 enc <? anchor); simpl; [|lia].
  rewrite IH. lia.
Qed.

Lemma take_before_prefix anchor encounters :
  take (length (before_prefix anchor encounters)) encounters =
  before_prefix anchor encounters.
Proof.
  induction encounters as [|enc rest IH]; simpl; [done|].
  destruct (enc0 enc <? anchor); simpl; [|done]. by rewrite IH.
Qed.

Lemma encounters_before_prefix empi :
  encounters_before empi =
  before_prefix (get_operation_date (get_patient_by_EMPI empi))
    (get_encounters empi).
Proof.
  unfold encounters_before. rewrite operation_index_loop_prefix.
  rewrite py_slice_to_nonneg by lia.
  replace (Z.to_nat (0 + Z.of_nat _)) with
    (length (before_prefix (get_operation_date (get_patient_by_EMPI empi))
               (get_encounters empi))) by lia.
  apply take_before_prefix.
Qed.

Lemma before_prefix_before anchor encounters :
  Forall (fun enc => enc0 enc < anchor) (before_prefix anchor encounters).
Proof.
  induction encounters as [|enc rest IH]; simpl; [constructor|].
  destruct (Z.ltb_spec (enc0 enc) anchor); by constructor.
Qed.

Lemma filter_none {A} (f : A -> bool) (l : list A) :
  Forall (fun x => f x = false) l -> List.filter f l = [].
Proof. induction 1 as [|x l Hx _ IH]; simpl; [done|]. by rewrite Hx. Qed.

(** When the encounters come in ascending date order, the prefix is all of
    the encounters dated before the anchor. *)
Lemma before_prefix_sorted anchor encounters :
  StronglySorted (fun a b => enc0 a <= enc0 b) encounters ->
  before_prefix anchor encounters =
  List.filter (fun enc => enc0 enc <? anchor) encounters.
Proof.
  induction 1 as [|enc rest Hs IH Hall]; simpl; [done|].
  destruct (Z.ltb_spec (enc0 enc) anchor) as [Hlt|Hge]; [by rewrite IH|].
  symmetry. apply filter_none.
  eapply Forall_impl; [exact Hall|]. simpl. intros e He.
  apply Z.ltb_ge. lia.
Qed.

Lemma tracked_encounters_nonneg self empi :
  0 <= max_encounters self ->
  tracked_encounters self empi =
  take (Z.to_nat (max_encounters self)) (reverse (encounters_before empi)).
Proof.
  intros HK. unfold tracked_encounters, num_tracked_encounters.
  rewrite py_slice_to_nonneg by lia.
  destruct (Z.le_gt_cases (max_encounters self)
              (Z.of_nat (length (encounters_before empi)))) as [Hle|Hgt].
  - by rewrite Z.min_l.
  - rewrite Z.min_r by lia.
    by rewrite !take_ge by (rewrite length_reverse; lia).
Qed.

(** ** The loop over the tracked encounters *)

Lemma fold_enc_step tracked st :
  fold_left enc_step tracked st =
  {| features := features st ++ flat_map enc_triple tracked;
     inpatients := inpatients st + inpatient_count tracked;
     total_LOS := total_LOS st + counted_LOS tracked;
     total_extra_diagnoses :=
       total_extra_diagnoses st + extra_diagnoses tracked |}.
Proof.
  revert st. induction tracked as [|enc rest IH]; intros [f i l e].
  - simpl. unfold inpatient_count, counted_LOS, extra_diagnoses. simpl.
    rewrite app_nil_r. f_equal; lia.
  - cbn [fold_left]. rewrite IH. clear IH.
    unfold inpatient_count, counted_LOS, extra_diagnoses, enc_step, enc_triple.
    cbn [flat_map List.filter map features inpatients total_LOS
         total_extra_diagnoses].
    fold (is_inpatient enc). rewrite Z.gtb_ltb.
    destruct (is_inpatient enc), (1 <? enc3 enc);
      cbn [features inpatients total_LOS total_extra_diagnoses length map
           sum_Z foldr app];
      rewrite <- ?app_assoc; cbn [app]; f_equal; unfold sum_Z; lia.
Qed.

Lemma zero_fill_replicate delta :
  zero_fill delta = replicate (3 * Z.to_nat delta) 0.
Proof.
  unfold zero_fill, py_range_len.
  induction (Z.to_nat delta) as [|n IH]; [done|].
  replace (3 * S n)%nat with (3 + 3 * n)%nat by lia.
  by rewrite replicate_add, <- IH.
Qed.

Lemma length_enc_triples window :
  length (flat_map enc_triple window) = (3 * length window)%nat.
Proof. induction window as [|enc rest IH]; simpl; lia. Qed.

Lemma py_slice_last_app {A} (l k : list A) :
  py_slice_last (l ++ k) (length k) = k.
Proof.
  unfold py_slice_last. rewrite length_app.
  replace (length l + length k - length k)%nat with (length l) by lia.
  apply drop_app_length.
Qed.

(** The feature vector: the per-encounter block, then the three overall
    features. *)
Lemma get_encounters_features_eq self empi :
  let tracked := tracked_encounters self empi in
  let num_tracked := num_tracked_encounters self empi in
  let block :=
    flat_map enc_triple tracked ++
    (if num_tracked <? max_encounters self
     then zero_fill (max_encounters self - num_tracked) else []) in
  let overall :=
    [inpatient_ratio tracked; average_LOS tracked;
     average_extra_diagnoses tracked] in
  get_encounters_features self empi =
  if only_general self then overall else block ++ overall.
Proof.
  intros tracked num_tracked block overall.
  unfold get_encounters_features. fold tracked num_tracked.
  rewrite fold_enc_step. cbn [features inpatients total_LOS
    total_extra_diagnoses enc_init]. rewrite !Z.add_0_l, app_nil_l.
  rewrite !Z.gtb_ltb. unfold py_div.
  assert (forall (b : bool) (l : list Z) (x y : Z),
    (if b then l ++ [x] else l ++ [y]) = l ++ [if b then x else y]) as Hif
    by (by intros []).
  rewrite !Hif, <- !app_assoc. cbn [app].
  fold (tracked_count tracked).
  fold (inpatient_ratio tracked) (average_LOS tracked)
       (average_extra_diagnoses tracked). fold overall.
  assert ((if num_tracked <? max_encounters self
           then flat_map enc_triple tracked ++
                zero_fill (max_encounters self - num_tracked)
           else flat_map enc_triple tracked) = block) as ->.
  { unfold block. destruct (num_tracked <? max_encounters self); [done|].
    by rewrite app_nil_r. }
  destruct (only_general self); [|done].
  apply (py_slice_last_app block overall).
Qed.

(** ** The padded list of latest notes *)

Lemma pair_of_event_valid anchor docs pairs :
  Forall (pair_of_event anchor docs) pairs ->
  Forall (fun p => is_Some (docs !! p.2)) pairs.
Proof.
  intros Hall. eapply Forall_impl; [exact Hall|].
  intros p (doc & date & Hl & _). by exists doc.
Qed.

Lemma texts_of_cons docs p pairs doc :
  docs !! p.2 = Some doc ->
  texts_of docs (p :: pairs) = free_text doc :: texts_of docs pairs.
Proof. intros Hp. unfold texts_of. simpl. by rewrite Hp. Qed.

Lemma texts_of_take docs pairs n :
  Forall (fun p => is_Some (docs !! p.2)) pairs ->
  texts_of docs (take n pairs) = take n (texts_of docs pairs).
Proof.
  intros Hall. revert n.
  induction Hall as [|p pairs [doc Hp] _ IH]; intros [|n]; try done.
  cbn [take]. rewrite !(texts_of_cons _ _ _ _ Hp). cbn [take].
  by rewrite IH.
Qed.

Lemma length_texts_of docs pairs :
  Forall (fun p => is_Some (docs !! p.2)) pairs ->
  length (texts_of docs pairs) = length pairs.
Proof.
  induction 1 as [|p pairs [doc Hp] _ IH]; [done|].
  rewrite (texts_of_cons _ _ _ _ Hp). simpl. by rewrite IH.
Qed.

Lemma append_notes_ok docs pairs notes :
  Forall (fun p => is_Some (docs !! p.2)) pairs ->
  append_notes docs pairs notes = Ok (notes ++ texts_of docs pairs).
Proof.
  intros Hall. revert notes.
  induction Hall as [|[t key] pairs [doc Hp] _ IH]; intros notes.
  - simpl. by rewrite app_nil_r.
  - rewrite (texts_of_cons _ _ _ _ Hp). simpl in Hp.
    cbn [append_notes]. unfold py_index. rewrite Hp. simpl.
    rewrite IH. by rewrite <- app_assoc.
Qed.

Lemma get_latest_concatenated_notes_window self empi :
  let person := get_patient_by_EMPI empi in
  get_latest_concatenated_notes self empi =
  Ok (pad_notes self
        (texts_of (dated_docs (ln_type self) person)
           (latest_notes_window self empi))).
Proof.
  intros person.
  unfold get_latest_concatenated_notes, latest_notes_window, dated_docs.
  fold person.
  assert (forall k, texts_of [] (py_slice_to
            (ranked_pairs (get_operation_date person) []) k) = []) as Hnil.
  { intros k. change (ranked_pairs _ []) with (@nil (Z * nat)).
    unfold py_slice_to. by destruct (0 <=? k); rewrite take_nil. }
  destruct (person !! ln_type self) as [docs|]; [|by rewrite Hnil].
  destruct (get_date_key (ln_type self)); [|by rewrite Hnil].
  rewrite append_notes_ok; [done|].
  apply Forall_py_slice_to.
  eapply pair_of_event_valid, ranked_pairs_events.
Qed.

Lemma pad_notes_take self notes :
  0 <= max_notes self ->
  let K := Z.to_nat (max_notes self) in
  pad_notes self (take K notes) =
  take K notes ++ replicate (K - Nat.min K (length notes)) EmptyString.
Proof.
  intros HK K. unfold pad_notes, py_range_len. rewrite length_take.
  destruct (Z.ltb_spec (Z.of_nat (Nat.min K (length notes))) (max_notes self)).
  - do 2 f_equal. lia.
  - replace (K - Nat.min K (length notes))%nat with 0%nat by lia.
    by rewrite app_nil_r.
Qed.

Lemma time_key_loop_length anchor docs i :
  length (time_key_loop anchor docs i []) =
  length (List.filter (before_anchor anchor) docs).
Proof.
  revert i. induction docs as [|doc rest IH]; intros i; simpl; [done|].
  unfold before_anchor at 1.
  destruct (parse_date (doc_date doc)) as [date|]; [|apply IH].
  destruct (date <? anchor); [|apply IH].
  rewrite time_key_loop_app. simpl. by rewrite IH.
Qed.

(** The ranked notes are as many as the documents dated before the
    anchor. *)
Lemma ranked_notes_length anchor docs :
  length (ranked_notes anchor docs) =
  length (List.filter (before_anchor anchor) docs).
Proof.
  unfold ranked_notes. rewrite length_texts_of.
  - unfold ranked_pairs. rewrite py_sort_perm. apply time_key_loop_length.
  - eapply pair_of_event_valid, ranked_pairs_events.
Qed.

(** C4.  For a non-negative [max_notes] the array of latest notes has
    exactly [max_notes] entries: the texts of the first
    [min max_notes n] of the [n] ranked notes, then empty strings.  For a
    non-negative [max_encounters] the per-encounter block of the feature
    vector has exactly [3 * max_encounters] entries: the triples of the
    first [min max_encounters n] encounters before the operation, latest
    first, then zeros; the three overall features follow the block. *)
Theorem fixed_width_output (ln : GetLatestNotesTransformer)
    (en : GetEncountersFeaturesTransformer) (empi : string) :
  0 <= max_notes ln ->
  0 <= max_encounters en ->
  only_general en = false ->
  let person := get_patient_by_EMPI empi in
  let anchor := get_operation_date person in
  let ranked := ranked_notes anchor (dated_docs (ln_type ln) person) in
  let K := Z.to_nat (max_notes ln) in
  let notes :=
    take K ranked ++ replicate (K - Nat.min K (length ranked)) EmptyString in
  let ranked_enc := reverse (encounters_before empi) in
  let Ke := Z.to_nat (max_encounters en) in
  let block :=
    flat_map enc_triple (take Ke ranked_enc) ++
    replicate (3 * (Ke - Nat.min Ke (length ranked_enc))) 0 in
  (get_latest_concatenated_notes ln empi = Ok notes /\ length notes = K) /\
  (exists overall,
     get_encounters_features en empi = block ++ overall /\
     length block = (3 * Ke)%nat /\ length overall = 3%nat).
Proof.
  intros HK HKe Hgen person anchor ranked K notes ranked_enc Ke block.
  split.
  - split.
    + rewrite get_latest_concatenated_notes_window. fold person.
      unfold latest_notes_window. fold person anchor.
      rewrite py_slice_to_nonneg by done. fold K.
      rewrite texts_of_take
        by (eapply pair_of_event_valid, ranked_pairs_events).
      fold (ranked_notes anchor (dated_docs (ln_type ln) person)).
      fold ranked. by rewrite pad_notes_take.
    + unfold notes. rewrite length_app, length_take, length_replicate. lia.
  - eexists. rewrite get_encounters_features_eq, Hgen.
    assert (length ranked_enc = length (encounters_before empi)) as Hlen
      by apply length_reverse.
    assert (flat_map enc_triple (tracked_encounters en empi) ++
            (if num_tracked_encounters en empi <? max_encounters en
             then zero_fill
                    (max_encounters en - num_tracked_encounters en empi)
             else []) = block) as ->.
    { unfold block. rewrite tracked_encounters_nonneg by done.
      fold ranked_enc Ke. f_equal.
      unfold num_tracked_encounters.
      destruct (Z.ltb_spec
        (Z.min (max_encounters en) (Z.of_nat (length (encounters_before empi))))
        (max_encounters en)).
      - rewrite zero_fill_replicate. f_equal. lia.
      - replace (3 * (Ke - Nat.min Ke (length ranked_enc)))%nat with 0%nat
          by lia. done. }
    split; [done|]. split; [|done].
    unfold block.
    rewrite length_app, length_enc_triples, length_take, length_replicate.
    lia.
Qed.

(** What the code computes for the second of the three overall features:
    the sum of the lengths of stay greater than one of the tracked
    encounters, divided as integers (rounding down) by the number of
    tracked inpatient encounters when that number is positive, and [0]
    otherwise. *)
Theorem average_LOS_divides_by_inpatients
    (self : GetEncountersFeaturesTransformer) (empi : string) :
  let tracked := tracked_encounters self empi in
  exists block ratio extra,
    get_encounters_features self empi =
    block ++
    [ ratio;
      if 0 <? inpatient_count tracked
      then counted_LOS tracked / inpatient_count tracked
      else 0;
      extra ].
Proof.
  intros tracked. rewrite get_encounters_features_eq. fold tracked.
  destruct (only_general self).
  - by exists [], (inpatient_ratio tracked), (average_extra_diagnoses tracked).
  - by eexists _, (inpatient_ratio tracked), (average_extra_diagnoses tracked).
Qed.

(** ** Every window lies before the anchor *)

(** C1.  The documents whose text [get_concatenated_notes] joins, the
    tuples whose documents [get_latest_concatenated_notes] returns, and the
    tracked encounters of [get_encounters_features] are all dated strictly
    before the operation date.  For the encounters this needs no assumption
    on their order: the window is cut from the prefix of encounters dated
    before the operation. *)
Theorem window_before_anchor (cn : GetConcatenatedNotesTransformer)
    (ln : GetLatestNotesTransformer) (en : GetEncountersFeaturesTransformer)
    (empi : string) :
  let person := get_patient_by_EMPI empi in
  let anchor := get_operation_date person in
  (get_concatenated_notes cn empi =
     py_join nlnl (map free_text (concatenated_notes_window cn empi)) /\
   Forall (fun doc => exists date,
             parse_date (doc_date doc) = Some date /\ date < anchor)
     (concatenated_notes_window cn empi)) /\
  (get_latest_concatenated_notes ln empi =
     Ok (pad_notes ln
           (texts_of (dated_docs (ln_type ln) person)
              (latest_notes_window ln empi))) /\
   Forall (pair_of_event anchor (dated_docs (ln_type ln) person))
     (latest_notes_window ln empi)) /\
  Forall (fun enc => enc0 enc < anchor) (tracked_encounters en empi).
Proof.
  intros person anchor. split_and!.
  - apply get_concatenated_notes_window.
  - unfold concatenated_notes_window. fold person anchor.
    rewrite concatenated_window_filter. simpl.
    apply Forall_forall. intros doc Hin.
    apply list_elem_of_In, filter_In in Hin as [_ Hq].
    apply andb_true_iff in Hq as [Hb _]. unfold before_anchor in Hb.
    destruct (parse_date (doc_date doc)) as [date|]; [|done].
    exists date. split; [done|]. by apply Z.ltb_lt.
  - apply get_latest_concatenated_notes_window.
  - apply Forall_py_slice_to, ranked_pairs_events.
  - unfold tracked_encounters. apply Forall_py_slice_to, Forall_reverse.
    rewrite encounters_before_prefix. apply before_prefix_before.
Qed.

(** ** Tf-idf vectors *)

Lemma fit_inv self0 X self :
  fit self0 X = Ok self ->
  exists x0, X !! 0%nat = Some x0 /\
    vec_size self = Z.of_nat (length x0) /\
    tfidf self = Some (tfidf_fit (map (py_join nlnl) X)).
Proof.
  unfold fit, py_index. destruct (X !! 0%nat) as [x0|]; [|done].
  simpl. intros [= <-]. by exists x0.
Qed.

Lemma length_concat_rows {A} (rows : list (list A)) (n : nat) :
  Forall (fun row => length row = n) rows ->
  length (concat rows) = (n * length rows)%nat.
Proof.
  induction 1 as [|row rows Hrow _ IH]; simpl; [lia|].
  rewrite length_app, IH, Hrow. lia.
Qed.

(** C7 (amended).  For a transformer fitted on a training set and any
    subject, the output is the concatenation of one tf-idf vector per
    document slot of that subject; its length is the vocabulary size times
    the number of slots of the subject, and this is
    [vocabularySize * vec_size] exactly when the subject has [vec_size]
    slots (or the vocabulary is empty), [vec_size] being the number of
    slots of the first training subject. *)
Theorem transform_one_length (X : list (list string))
    (self : MultiDocTfidfTransformer) (x : list string) :
  fit MultiDocTfidfTransformer_init X = Ok self ->
  exists rows,
    tfidf_transform self x = Ok rows /\
    transform_one self x = Ok (concat rows) /\
    length rows = length x /\
    Forall (fun row => Z.of_nat (length row) = vocabularySize self) rows /\
    Z.of_nat (length (concat rows)) =
      vocabularySize self * Z.of_nat (length x) /\
    (Z.of_nat (length (concat rows)) = vocabularySize self * vec_size self <->
     vocabularySize self = 0 \/ Z.of_nat (length x) = vec_size self).
Proof.
  intros Hfit. apply fit_inv in Hfit as (x0 & _ & Hvec & Hf).
  unfold transform_one, tfidf_transform, vocabularySize. rewrite Hf.
  eexists. split; [done|]. split; [done|].
  set (f := tfidf_fit (map (py_join nlnl) X)).
  set (rows := map _ x).
  assert (Forall (fun row => length row = length (vocabulary f)) rows) as Hrows.
  { unfold rows. apply Forall_forall. intros row Hin.
    apply list_elem_of_In, in_map_iff in Hin as (doc & <- & _).
    apply length_map. }
  assert (length rows = length x) as Hlen by apply length_map.
  split; [done|]. split.
  { eapply Forall_impl; [exact Hrows|]. simpl. intros row ->. done. }
  rewrite (length_concat_rows rows _ Hrows), Hlen. split; [lia|]. nia.
Qed.

(** On a fitted transformer [transform] raises nothing and returns one
    vector per subject, the one of [transform_one]. *)
Lemma transform_fitted (X0 : list (list string))
    (self : MultiDocTfidfTransformer) (X : list (list string)) :
  fit MultiDocTfidfTransformer_init X0 = Ok self ->
  exists out,
    transform self X = Ok out /\
    Forall2 (fun x v => transform_one self x = Ok v) X out.
Proof.
  intros Hfit. apply fit_inv in Hfit as (x0 & _ & _ & Hf). unfold transform.
  induction X as [|x X (out & Hout & Hall)].
  - exists []. split; [done|constructor].
  - assert (exists v, transform_one self x = Ok v) as [v Hone].
    { unfold transform_one, tfidf_transform. rewrite Hf. by eexists. }
    exists (v :: out). cbn [py_map]. rewrite Hone. simpl.
    rewrite Hout. simpl. split; [done|]. by constructor.
Qed.

(** ** Latest lab values *)

Lemma latest_step_lookup d lab x raw lab' :
  latest_step d (lab, (x, raw)) !! lab' =
  if decide (lab = lab') then
    if truthy_str raw then Some (lab_value_of raw) else d !! lab'
  else d !! lab'.
Proof.
  unfold latest_step, lab_value_of.
  destruct (truthy_str raw); [|by case_decide].
  destruct (py_float raw); rewrite lookup_insert; by case_decide.
Qed.

Lemma fold_latest_step_lookup (items : list (string * (Z * string))) d lab :
  NoDup (items.*1) ->
  fold_left latest_step items d !! lab =
  match (list_to_map items : gmap string (Z * string)) !! lab with
  | Some (_, raw) =>
      if truthy_str raw then Some (lab_value_of raw) else d !! lab
  | None => d !! lab
  end.
Proof.
  revert d. induction items as [|[k [x raw]] items IH]; intros d Hnd.
  - done.
  - apply NoDup_cons in Hnd as [Hk Hnd]. cbn [fold_left list_to_map foldr].
    rewrite IH by done. simpl in Hk.
    rewrite lookup_insert, latest_step_lookup. cbn [fst snd].
    destruct (decide (k = lab)) as [->|Hne].
    + by rewrite (not_elem_of_list_to_map_1 _ _ Hk).
    + by destruct (list_to_map items !! lab) as [[? ?]|].
Qed.

(** C9 (amended).  [get_latest_lab_values] maps a test of the lookup whose
    raw value is a non-empty text to the number it parses to, or to the
    raw text itself when it does not parse; a test whose raw value is
    empty, and a test not in the lookup, has no entry. *)
Theorem get_latest_lab_values_spec (empi lab : string) :
  let anchor := get_operation_date (get_patient_by_EMPI empi) in
  get_latest_lab_values empi !! lab =
  match get_recent_lab_values empi anchor !! lab with
  | Some (_, raw) =>
      if truthy_str raw then
        Some (match py_float raw with
              | Some x => Number x
              | None => Text raw
              end)
      else None
  | None => None
  end.
Proof.
  intros anchor. unfold get_latest_lab_values. fold anchor.
  rewrite fold_latest_step_lookup by apply NoDup_fst_map_to_list.
  rewrite list_to_map_to_list, lookup_empty. done.
Qed.

(** ** Keys of the lab history dictionary *)

Lemma string_app_assoc (a b c : string) : (a +:+ b) +:+ c = a +:+ b +:+ c.
Proof.
  induction a as [|x a IH]; [done|].
  change (String x ((a +:+ b) +:+ c) = String x (a +:+ b +:+ c)).
  by rewrite IH.
Qed.

Lemma has_underscore_app a s : has_underscore (a +:+ String "_" s) = true.
Proof.
  induction a as [|x a IH]; [done|].
  change (has_underscore (String x (a +:+ String "_" s)) = true).
  cbn [has_underscore]. rewrite IH. apply orb_true_r.
Qed.

(** A text free of underscores is determined, with what precedes it, by
    the last underscore. *)
Lemma split_last_underscore a b s1 s2 :
  has_underscore s1 = false -> has_underscore s2 = false ->
  a +:+ String "_" s1 = b +:+ String "_" s2 -> a = b /\ s1 = s2.
Proof.
  intros H1 H2. revert b.
  induction a as [|x a IH]; intros [|y b] Heq; simpl in Heq.
  - by injection Heq.
  - injection Heq as _ ->. by rewrite has_underscore_app in H1.
  - injection Heq as _ <-. by rewrite has_underscore_app in H2.
  - injection Heq as -> Heq. by destruct (IH b Heq) as [-> ->].
Qed.

Lemma pretty_N_go_no_underscore x s :
  has_underscore s = false -> has_underscore (pretty_N_go x s) = false.
Proof.
  revert s. induction (N.lt_wf_0 x) as [x _ IH]; intros s Hs.
  assert (x = 0 \/ 0 < x)%N as [->|Hx] by lia.
  - by rewrite pretty_N_go_0.
  - rewrite pretty_N_go_step by done. apply IH; [by apply N.div_lt|].
    simpl. rewrite Hs. unfold pretty_N_char. by repeat case_match.
Qed.

Lemma pretty_N_no_underscore (x : N) : has_underscore (pretty x) = false.
Proof.
  unfold pretty, pretty_N. case_decide; [done|].
  by apply pretty_N_go_no_underscore.
Qed.

Lemma py_str_no_underscore t : has_underscore (py_str t) = false.
Proof.
  unfold py_str, pretty, pretty_Z. destruct t as [|p|p]; [done|..].
  - apply pretty_N_no_underscore.
  - simpl. apply pretty_N_no_underscore.
Qed.

(** The key determines the lab, the mark and the threshold. *)
Lemma history_key_inj lab1 lab2 mark1 mark2 t1 t2 :
  has_underscore mark1 = false -> has_underscore mark2 = false ->
  lab1 +:+ "_" +:+ mark1 +:+ "_" +:+ py_str t1 =
  lab2 +:+ "_" +:+ mark2 +:+ "_" +:+ py_str t2 ->
  lab1 = lab2 /\ mark1 = mark2 /\ t1 = t2.
Proof.
  intros Hm1 Hm2 Heq.
  assert (forall lab mark s,
    lab +:+ "_" +:+ mark +:+ "_" +:+ s =
    (lab +:+ String "_" mark) +:+ String "_" s) as Hre.
  { intros lab mark s. symmetry.
    apply (string_app_assoc lab (String "_" mark) (String "_" s)). }
  rewrite !Hre in Heq.
  apply split_last_underscore in Heq as [Heq Ht];
    [|apply py_str_no_underscore..].
  apply split_last_underscore in Heq as [-> ->]; [|done..].
  split_and!; [done..|]. by apply (inj pretty).
Qed.

Lemma flag_value_decide flag mark :
  flag_value flag mark = if decide (flag = mark) then 1 else 0.
Proof.
  unfold flag_value. destruct (String.eqb_spec flag mark); by case_decide.
Qed.

(** ** The loops of [get_labs_history] *)

Lemma threshold_loop_writes thresholds lab flags indices d :
  Forall (fun i => (i < length flags)%nat /\ (i < length thresholds)%nat)
    indices ->
  threshold_loop thresholds lab flags indices d =
  Ok (foldl assign d
        (flat_map (threshold_writes thresholds lab flags) indices)).
Proof.
  intros Hall. revert d.
  induction Hall as [|i indices [Hf Ht] _ IH]; intros d; [done|].
  apply lookup_lt_is_Some in Hf as [flag Hf].
  apply lookup_lt_is_Some in Ht as [t Ht].
  cbn [threshold_loop flat_map]. unfold py_index, threshold_writes.
  rewrite Hf, Ht. simpl. by rewrite IH.
Qed.

Lemma lab_loop_writes thresholds items d :
  Forall (fun item => (length thresholds <= length item.2)%nat) items ->
  lab_loop thresholds items d =
  Ok (foldl assign d (history_writes thresholds items)).
Proof.
  intros Hall. revert d.
  induction Hall as [|[lab flags] items Hlen _ IH]; intros d; [done|].
  cbn [lab_loop]. rewrite threshold_loop_writes.
  - simpl. rewrite IH. unfold history_writes. cbn [flat_map].
    by rewrite foldl_app.
  - apply Forall_forall. intros i Hi. apply elem_of_seq in Hi.
    simpl in Hlen. lia.
Qed.

Lemma foldl_assign_list_to_map (writes : list (string * Z)) :
  foldl assign ∅ writes = list_to_map (reverse writes).
Proof.
  induction writes as [|w writes IH] using rev_ind; [done|].
  rewrite foldl_snoc, reverse_snoc, IH. by destruct w.
Qed.

Lemma elem_of_history_writes thresholds items key v :
  (key, v) ∈ history_writes thresholds items <->
  exists lab flags i t flag,
    (lab, flags) ∈ items /\ thresholds !! i = Some t /\
    flags !! i = Some flag /\
    ((key = lab +:+ "_H_" +:+ py_str t /\ v = flag_value flag "H") \/
     (key = lab +:+ "_L_" +:+ py_str t /\ v = flag_value flag "L")).
Proof.
  unfold history_writes, lab_writes. rewrite list_elem_of_In, in_flat_map.
  split.
  - intros ([lab flags] & Hitem & Hin). apply in_flat_map in Hin as (i & _ & Hin).
    unfold threshold_writes in Hin. simpl in Hin.
    destruct (flags !! i) as [flag|] eqn:Hf; [|done].
    destruct (thresholds !! i) as [t|] eqn:Ht; [|done].
    exists lab, flags, i, t, flag. apply list_elem_of_In in Hitem.
    split_and!; [done..|].
    destruct Hin as [[= <- <-]|[[= <- <-]|[]]]; [by left|by right].
  - intros (lab & flags & i & t & flag & Hitem & Ht & Hf & Hkv).
    exists (lab, flags). split; [by apply list_elem_of_In|].
    apply in_flat_map. exists i. split.
    + apply in_seq. apply lookup_lt_Some in Ht. lia.
    + unfold threshold_writes. simpl. rewrite Hf, Ht.
      destruct Hkv as [[-> ->]|[-> ->]]; [by left|by right; left].
Qed.

(** C8.  With pairwise distinct thresholds, and a lab history that holds a
    flag for every threshold, [get_labs_history] returns a dictionary whose
    entries are exactly: for every lab of the history and every threshold
    [t], the key [lab + "_H_" + str(t)] with value [1] if the flag of the
    lab at the position of [t] is ['H'] and [0] otherwise, and the key
    [lab + "_L_" + str(t)] with value [1] if that flag is ['L'] and [0]
    otherwise. *)
Theorem get_labs_history_spec (self : GetLabsHistoryDictTransformer)
    (empi : string) :
  let anchor := get_operation_date (get_patient_by_EMPI empi) in
  let thresholds := time_thresholds_months self in
  let lab_history := get_lab_history_before_date empi anchor thresholds in
  NoDup thresholds ->
  map_Forall (fun _ flags => (length thresholds <= length flags)%nat)
    lab_history ->
  exists d,
    get_labs_history self empi = Ok d /\
    forall key v,
      d !! key = Some v <->
      exists lab flags i t flag,
        lab_history !! lab = Some flags /\ thresholds !! i = Some t /\
        flags !! i = Some flag /\
        ((key = lab +:+ "_H_" +:+ py_str t /\
          v = if decide (flag = "H") then 1 else 0) \/
         (key = lab +:+ "_L_" +:+ py_str t /\
          v = if decide (flag = "L") then 1 else 0)).
Proof.
  intros anchor thresholds lab_history Hnd Hlen.
  unfold get_labs_history. fold anchor thresholds lab_history.
  rewrite lab_loop_writes, foldl_assign_list_to_map.
  2: { apply Forall_forall. intros [lab flags] Hin.
       apply elem_of_map_to_list in Hin. by apply (Hlen lab). }
  eexists. split; [done|]. intros key v.
  set (writes := history_writes thresholds (map_to_list lab_history)).
  assert (forall k x, (k, x) ∈ writes <->
    exists lab flags i t flag,
      lab_history !! lab = Some flags /\ thresholds !! i = Some t /\
      flags !! i = Some flag /\
      ((k = lab +:+ "_H_" +:+ py_str t /\
        x = if decide (flag = "H") then 1 else 0) \/
       (k = lab +:+ "_L_" +:+ py_str t /\
        x = if decide (flag = "L") then 1 else 0))) as Hw.
  { intros k x. unfold writes. rewrite elem_of_history_writes.
    setoid_rewrite elem_of_map_to_list.
    by setoid_rewrite flag_value_decide. }
  rewrite <- Hw. split.
  - intros Hl. apply elem_of_list_to_map_2 in Hl.
    by apply elem_of_reverse.
  - intros Hin. apply elem_of_list_to_map_1'; [|by apply elem_of_reverse].
    intros v' Hin'. rewrite elem_of_reverse in Hin'. apply Hw in Hin'.
    apply Hw in Hin.
    destruct Hin as (lab & flags & i & t & flag & Hlab & Ht & Hf & Hkv).
    destruct Hin' as (lab' & flags' & i' & t' & flag' & Hlab' & Ht' & Hf' & Hkv').
    assert (lab = lab' /\ t = t' /\
            ((v = (if decide (flag = "H") then 1 else 0) /\
              v' = (if decide (flag' = "H") then 1 else 0)) \/
             (v = (if decide (flag = "L") then 1 else 0) /\
              v' = (if decide (flag' = "L") then 1 else 0))))
      as (<- & <- & Hv).
    { destruct Hkv as [[-> ->]|[-> ->]], Hkv' as [[Hk ->]|[Hk ->]];
        apply (history_key_inj _ _ "H" "H") in Hk ||
        apply (history_key_inj _ _ "H" "L") in Hk ||
        apply (history_key_inj _ _ "L" "H") in Hk ||
        apply (history_key_inj _ _ "L" "L") in Hk;
        try done; destruct Hk as (-> & ? & ->); try done;
        split_and!; auto. }
    assert (i = i') as <- by (by eapply NoDup_lookup).
    assert (flags = flags') as <- by congruence.
    assert (flag = flag') as <- by congruence.
    by destruct Hv as [[-> ->]|[-> ->]].
Qed.

(** ** The three overall features *)

(** The inpatient ratio is an integer quotient: it is [1] when the window
    is not empty and all its encounters are inpatient, and [0] otherwise. *)
Lemma inpatient_ratio_floor window :
  inpatient_ratio window =
  if (0 <? tracked_count window) &&
     (inpatient_count window =? tracked_count window)
  then 1 else 0.
Proof.
  unfold inpatient_ratio.
  assert (0 <= inpatient_count window <= tracked_count window) as Hle.
  { unfold inpatient_count, tracked_count.
    pose proof (List.filter_length_le is_inpatient window). lia. }
  destruct (Z.ltb_spec 0 (tracked_count window)); simpl; [|done].
  destruct (Z.eqb_spec (inpatient_count window) (tracked_count window))
    as [->|Hne].
  - by apply Z_div_same_full; lia.
  - apply Z.div_small. lia.
Qed.

Lemma inpatient_ratio_range window : 0 <= inpatient_ratio window <= 1.
Proof.
  rewrite inpatient_ratio_floor.
  destruct (_ && _); lia.
Qed.

(** ** Further properties of the note transformers *)

Lemma get_latest_concatenated_notes_nonneg self empi :
  0 <= max_notes self ->
  let person := get_patient_by_EMPI empi in
  let ranked :=
    ranked_notes (get_operation_date person)
      (dated_docs (ln_type self) person) in
  let K := Z.to_nat (max_notes self) in
  get_latest_concatenated_notes self empi =
  Ok (take K ranked ++ replicate (K - Nat.min K (length ranked)) EmptyString).
Proof.
  intros HK person ranked K.
  rewrite get_latest_concatenated_notes_window. fold person.
  unfold latest_notes_window. fold person.
  rewrite py_slice_to_nonneg by done. fold K.
  rewrite texts_of_take by (eapply pair_of_event_valid, ranked_pairs_events).
  fold (ranked_notes (get_operation_date person)
          (dated_docs (ln_type self) person)).
  fold ranked. by rewrite pad_notes_take.
Qed.

Global Instance latest_note_name_inj :
  Inj (=) (=) (fun i : nat => "latest_note_" +:+ py_str (Z.of_nat i)).
Proof.
  intros i j Heq. apply (inj (String.append _)) in Heq.
  apply (inj pretty) in Heq. lia.
Qed.

(** X1.  For a non-negative [max_notes] the feature names of
    [GetLatestNotesTransformer] are pairwise distinct and as many as the
    entries of the array returned for any patient. *)
Theorem latest_notes_names_match_width (self : GetLatestNotesTransformer)
    (empi : string) :
  0 <= max_notes self ->
  exists notes,
    get_latest_concatenated_notes self empi = Ok notes /\
    length notes = length (GetLatestNotesTransformer_get_feature_names self) /\
    NoDup (GetLatestNotesTransformer_get_feature_names self).
Proof.
  intros HK. eexists. split; [by apply get_latest_concatenated_notes_nonneg|].
  unfold GetLatestNotesTransformer_get_feature_names, py_range_len. split.
  - rewrite length_app, length_take, length_replicate, length_map, length_seq.
    lia.
  - apply (NoDup_fmap_2 _), NoDup_seq.
Qed.

(** X2.  For a negative [max_notes] nothing is padded: the array holds the
    ranked notes without the [-max_notes] farthest from the operation, and
    there is no feature name. *)
Theorem latest_notes_negative_max (self : GetLatestNotesTransformer)
    (empi : string) :
  max_notes self < 0 ->
  let person := get_patient_by_EMPI empi in
  let ranked :=
    ranked_notes (get_operation_date person)
      (dated_docs (ln_type self) person) in
  get_latest_concatenated_notes self empi =
    Ok (take (length ranked - Z.to_nat (- max_notes self)) ranked) /\
  GetLatestNotesTransformer_get_feature_names self = [].
Proof.
  intros HK person ranked. split.
  - rewrite get_latest_concatenated_notes_window. fold person.
    unfold latest_notes_window. fold person. unfold py_slice_to.
    destruct (Z.leb_spec 0 (max_notes self)); [lia|].
    rewrite texts_of_take
      by (eapply pair_of_event_valid, ranked_pairs_events).
    fold (ranked_notes (get_operation_date person)
            (dated_docs (ln_type self) person)). fold ranked.
    assert (length (ranked_pairs (get_operation_date person)
                      (dated_docs (ln_type self) person)) = length ranked)
      as ->.
    { symmetry. apply length_texts_of.
      eapply pair_of_event_valid, ranked_pairs_events. }
    unfold pad_notes.
    destruct (Z.ltb_spec (Z.of_nat (length (take
      (Z.to_nat (Z.of_nat (length ranked) + max_notes self)) ranked)))
      (max_notes self)); [lia|].
    do 2 f_equal. lia.
  - unfold GetLatestNotesTransformer_get_feature_names, py_range_len.
    by replace (Z.to_nat (max_notes self)) with 0%nat by lia.
Qed.

(** X3.  A patient without the note type, or a note type without a date
    key, is no error: the joined text is empty and the array of latest
    notes holds only empty strings. *)
Theorem notes_missing_type (type : string) (lb : option Z) (K : Z)
    (empi : string) :
  get_patient_by_EMPI empi !! type = None \/ get_date_key type = None ->
  get_concatenated_notes {| cn_type := type; look_back_months := lb |} empi =
    EmptyString /\
  get_latest_concatenated_notes {| ln_type := type; max_notes := K |} empi =
    Ok (replicate (Z.to_nat K) EmptyString).
Proof.
  intros Hmiss.
  assert (dated_docs type (get_patient_by_EMPI empi) = []) as Hnone.
  { unfold dated_docs. destruct Hmiss as [-> | ->]; [done|].
    by destruct (get_patient_by_EMPI empi !! type). }
  split.
  - rewrite get_concatenated_notes_window. unfold concatenated_notes_window.
    simpl. by rewrite Hnone.
  - rewrite get_latest_concatenated_notes_window.
    unfold latest_notes_window. simpl. rewrite Hnone.
    change (ranked_pairs _ []) with (@nil (Z * nat)).
    assert (py_slice_to (@nil (Z * nat)) K = []) as ->.
    { unfold py_slice_to. by destruct (0 <=? K); rewrite take_nil. }
    change (texts_of [] []) with (@nil string).
    unfold pad_notes, py_range_len. cbn [length max_notes app].
    change (Z.of_nat 0) with 0.
    destruct (Z.ltb_spec 0 K).
    + by replace (K - 0) with K by lia.
    + by replace (Z.to_nat K) with 0%nat by lia.
Qed.

Lemma filter_sublist_impl {A} (p q : A -> bool) (l : list A) :
  (forall x, p x = true -> q x = true) ->
  List.filter p l `sublist_of` List.filter q l.
Proof.
  intros Himp. induction l as [|x l IH]; simpl; [constructor|].
  destruct (p x) eqn:Hp.
  - rewrite (Himp x Hp). by constructor.
  - destruct (q x); [by constructor|done].
Qed.

Lemma filter_sublist {A} (p : A -> bool) (l : list A) :
  List.filter p l `sublist_of` l.
Proof.
  induction l as [|x l IH]; simpl; [constructor|].
  destruct (p x); by constructor.
Qed.

(** X4.  The documents joined for a lookback of [m1] months are, in the
    same order, among those joined for a longer lookback [m2]; these are
    among those joined without lookback, which are among the documents of
    the record. *)
Theorem lookback_windows_nested (type : string) (m1 m2 : Z) (empi : string) :
  0 < m1 -> m1 <= m2 ->
  let window lb :=
    concatenated_notes_window {| cn_type := type; look_back_months := lb |}
      empi in
  window (Some m1) `sublist_of` window (Some m2) /\
  window (Some m2) `sublist_of` window None /\
  window None `sublist_of` dated_docs type (get_patient_by_EMPI empi).
Proof.
  intros H1 H12 window. unfold window, concatenated_notes_window. simpl.
  rewrite !concatenated_window_filter. simpl. split_and!.
  - apply filter_sublist_impl. intros doc.
    rewrite !andb_true_iff. intros [Hb Hl]. split; [done|].
    unfold lookback_nonzero, within_months in *.
    destruct (parse_date (doc_date doc)) as [date|];
      [|by rewrite orb_false_r in *; lia].
    apply orb_true_iff in Hl as [Hz|Hl]; [lia|].
    apply orb_true_iff. right. lia.
  - apply filter_sublist_impl. intros doc.
    rewrite !andb_true_iff. by intros [Hb _].
  - apply filter_sublist.
Qed.

(** X5.  A negative lookback leaves no note: every note dated before the
    operation is older than the bound. *)
Theorem negative_lookback_empty (type : string) (m : Z) (empi : string) :
  m < 0 ->
  get_concatenated_notes {| cn_type := type; look_back_months := Some m |}
    empi = EmptyString.
Proof.
  intros Hm. rewrite get_concatenated_notes_window.
  unfold concatenated_notes_window. simpl.
  rewrite concatenated_window_filter. simpl.
  rewrite filter_none; [done|].
  apply Forall_forall. intros doc _.
  unfold before_anchor, lookback_nonzero, within_months.
  destruct (parse_date (doc_date doc)) as [date|]; [|done].
  destruct (Z.ltb_spec date
    (get_operation_date (get_patient_by_EMPI empi))); [|done].
  simpl. apply orb_false_iff. split; lia.
Qed.

Lemma texts_of_app docs pairs1 pairs2 :
  texts_of docs (pairs1 ++ pairs2) =
  texts_of docs pairs1 ++ texts_of docs pairs2.
Proof. apply omap_app. Qed.

(** In record order the tuples point to the documents dated before the
    anchor. *)
Lemma texts_of_time_key_loop anchor pre docs :
  texts_of (pre ++ docs) (time_key_loop anchor docs (length pre) []) =
  map free_text (List.filter (before_anchor anchor) docs).
Proof.
  revert pre. induction docs as [|doc rest IH]; intros pre; [done|].
  assert (texts_of (pre ++ doc :: rest)
            (time_key_loop anchor rest (S (length pre)) []) =
          map free_text (List.filter (before_anchor anchor) rest)) as Hrest.
  { rewrite <- (IH (pre ++ [doc])), length_app, <- app_assoc. simpl.
    by rewrite Nat.add_1_r. }
  cbn [time_key_loop List.filter]. unfold before_anchor at 1.
  destruct (parse_date (doc_date doc)) as [date|]; [|done].
  destruct (date <? anchor); [|done].
  rewrite time_key_loop_app, texts_of_app, Hrest. cbn [app map].
  rewrite (texts_of_cons _ _ _ doc); [done|].
  simpl. by rewrite list_lookup_middle.
Qed.

Lemma ranked_notes_perm anchor docs :
  ranked_notes anchor docs ≡ₚ
  map free_text (List.filter (before_anchor anchor) docs).
Proof.
  rewrite <- (texts_of_time_key_loop anchor [] docs). simpl.
  unfold ranked_notes, texts_of, ranked_pairs. by rewrite py_sort_perm.
Qed.

(** X6.  When [max_notes] is at least the number of notes dated before the
    operation, the array of latest notes holds, before its empty strings,
    a rearrangement of the very texts that [get_concatenated_notes] joins
    without lookback. *)
Theorem latest_notes_same_notes (type : string) (K : Z) (empi : string) :
  let joined :=
    concatenated_notes_window {| cn_type := type; look_back_months := None |}
      empi in
  Z.of_nat (length joined) <= K ->
  exists real,
    get_latest_concatenated_notes {| ln_type := type; max_notes := K |} empi =
      Ok (real ++ replicate (Z.to_nat K - length real) EmptyString) /\
    real ≡ₚ map free_text joined.
Proof.
  intros joined HK.
  set (person := get_patient_by_EMPI empi).
  set (anchor := get_operation_date person).
  assert (joined = List.filter (before_anchor anchor) (dated_docs type person))
    as Hjoined.
  { unfold joined, concatenated_notes_window. simpl.
    rewrite concatenated_window_filter. simpl.
    apply filter_ext. intros doc. apply andb_true_r. }
  exists (ranked_notes anchor (dated_docs type person)).
  assert (length (ranked_notes anchor (dated_docs type person)) =
          length joined) as Hlen
    by (rewrite Hjoined; apply ranked_notes_length).
  split.
  - rewrite get_latest_concatenated_notes_nonneg by (simpl; lia).
    simpl. fold person anchor.
    rewrite take_ge by lia. do 3 f_equal. lia.
  - rewrite Hjoined. apply ranked_notes_perm.
Qed.

Lemma time_key_loop_complete anchor docs i j doc date :
  docs !! j = Some doc -> parse_date (doc_date doc) = Some date ->
  date < anchor ->
  (anchor - date, (i + j)%nat) ∈ time_key_loop anchor docs i [].
Proof.
  revert i j. induction docs as [|doc0 rest IH]; intros i j Hj Hd Hlt; [done|].
  cbn [time_key_loop]. destruct j as [|j]; simpl in Hj.
  - injection Hj as ->. rewrite Hd.
    destruct (Z.ltb_spec date anchor); [|lia].
    rewrite time_key_loop_app, Nat.add_0_r. simpl. apply list_elem_of_here.
  - specialize (IH (S i) j Hj Hd Hlt).
    replace (i + S j)%nat with (S i + j)%nat by lia.
    destruct (parse_date (doc_date doc0)) as [date0|]; [|done].
    destruct (date0 <? anchor); [|done].
    rewrite time_key_loop_app. simpl. by apply list_elem_of_further.
Qed.

(** X7.  When [max_notes] is positive and the patient has a note dated
    before the operation, the first entry of the array is the text of a
    note dated before the operation than which no such note of the patient
    is dated later. *)
Theorem latest_notes_head_is_closest (self : GetLatestNotesTransformer)
    (empi : string) :
  let person := get_patient_by_EMPI empi in
  let anchor := get_operation_date person in
  let docs := dated_docs (ln_type self) person in
  0 < max_notes self ->
  (exists doc, doc ∈ docs /\ before_anchor anchor doc = true) ->
  exists key doc date rest,
    get_latest_concatenated_notes self empi = Ok (free_text doc :: rest) /\
    docs !! key = Some doc /\
    parse_date (doc_date doc) = Some date /\ date < anchor /\
    forall doc' date',
      doc' ∈ docs -> parse_date (doc_date doc') = Some date' ->
      date' < anchor -> date' <= date.
Proof.
  intros person anchor docs HK (doc1 & Hin1 & Hb1).
  assert (forall doc' date', doc' ∈ docs ->
            parse_date (doc_date doc') = Some date' -> date' < anchor ->
            exists j, (anchor - date', j) ∈ ranked_pairs anchor docs) as Hall.
  { intros doc' date' Hin Hd Hlt.
    apply list_elem_of_lookup in Hin as [j Hj]. exists j.
    unfold ranked_pairs. rewrite py_sort_perm.
    apply (time_key_loop_complete anchor docs 0 j doc' date' Hj Hd Hlt). }
  pose proof (py_sort_sorted (time_key_loop anchor docs 0 [])) as Hsorted.
  pose proof (ranked_pairs_events anchor docs) as Hev.
  fold (ranked_pairs anchor docs) in Hsorted.
  unfold before_anchor in Hb1.
  destruct (parse_date (doc_date doc1)) as [date1|] eqn:Hd1; [|done].
  apply Z.ltb_lt in Hb1.
  destruct (Hall doc1 date1 Hin1 Hd1 Hb1) as [j1 Hj1].
  pose proof (get_latest_concatenated_notes_nonneg self empi ltac:(lia))
    as Hout. simpl in Hout. fold person anchor docs in Hout.
  unfold ranked_notes in Hout.
  destruct (ranked_pairs anchor docs) as [|p0 rest] eqn:Hranked;
    [by apply elem_of_nil in Hj1|].
  apply Forall_cons in Hev as [(doc & date & Hl & Hd & Hlt & Hp0) _].
  apply StronglySorted_inv in Hsorted as [_ Hmin].
  rewrite (texts_of_cons _ _ _ doc Hl) in Hout.
  destruct (Z.to_nat (max_notes self)) as [|K] eqn:HKn; [lia|].
  exists p0.2, doc, date. eexists. split; [exact Hout|].
  split_and!; [done..|].
  intros doc' date' Hin Hd' Hlt'.
  destruct (Hall doc' date' Hin Hd' Hlt') as [j Hj].
  apply elem_of_cons in Hj as [Heq|Hj].
  - rewrite <- Heq in Hp0. simpl in Hp0. lia.
  - rewrite Forall_forall in Hmin. apply Hmin in Hj.
    apply pair_le_iff in Hj. simpl in Hj. lia.
Qed.

(** ** Further properties of the encounter features *)

Lemma length_tracked_encounters self empi :
  0 <= max_encounters self ->
  Z.of_nat (length (tracked_encounters self empi)) =
  num_tracked_encounters self empi.
Proof.
  intros HK. rewrite tracked_encounters_nonneg by done.
  rewrite length_take, length_reverse. unfold num_tracked_encounters. lia.
Qed.

Lemma length_get_encounters_features self empi :
  0 <= max_encounters self ->
  length (get_encounters_features self empi) =
  if only_general self then 3%nat
  else (3 * Z.to_nat (max_encounters self) + 3)%nat.
Proof.
  intros HK. rewrite get_encounters_features_eq.
  destruct (only_general self); [done|].
  rewrite !length_app, length_enc_triples.
  pose proof (length_tracked_encounters self empi HK) as Hlen.
  destruct (Z.ltb_spec (num_tracked_encounters self empi)
              (max_encounters self)).
  - rewrite zero_fill_replicate, length_replicate. simpl. lia.
  - unfold num_tracked_encounters in *. simpl. lia.
Qed.

Lemma length_flat_map_const {A B} (f : A -> list B) (n : nat) (l : list A) :
  (forall x, length (f x) = n) ->
  length (flat_map f l) = (n * length l)%nat.
Proof.
  intros Hf. induction l as [|x l IH]; simpl; [lia|].
  rewrite length_app, Hf, IH. lia.
Qed.

(** X8.  For a non-negative [max_encounters] there are
    [3 * max_encounters + 3] feature names whatever [only_general] is; the
    feature vector has as many entries as there are names when
    [only_general] is false, and three entries when it is true. *)
Theorem encounter_names_and_width (self : GetEncountersFeaturesTransformer)
    (empi : string) :
  0 <= max_encounters self ->
  let names := GetEncountersFeaturesTransformer_get_feature_names self in
  Z.of_nat (length names) = 3 * max_encounters self + 3 /\
  length (get_encounters_features self empi) =
    if only_general self then 3%nat else length names.
Proof.
  intros HK names.
  assert (length names = (3 * Z.to_nat (max_encounters self) + 3)%nat) as Hn.
  { unfold names, GetEncountersFeaturesTransformer_get_feature_names,
      py_range_len.
    rewrite length_app, (length_flat_map_const _ 3%nat) by done.
    rewrite length_seq. simpl. lia. }
  split; [lia|].
  rewrite length_get_encounters_features by done. by rewrite Hn.
Qed.

Lemma inpatient_count_all window :
  (inpatient_count window =? tracked_count window) =
  forallb is_inpatient window.
Proof.
  unfold inpatient_count, tracked_count.
  induction window as [|enc rest IH]; [done|].
  cbn [List.filter forallb].
  pose proof (List.filter_length_le is_inpatient rest) as Hle.
  destruct (is_inpatient enc); cbn [length andb].
  - rewrite <- IH.
    destruct (Z.eqb_spec (Z.of_nat (length (List.filter is_inpatient rest)))
                (Z.of_nat (length rest))),
             (Z.eqb_spec
                (Z.of_nat (S (length (List.filter is_inpatient rest))))
                (Z.of_nat (S (length rest)))); try done; lia.
  - apply Z.eqb_neq. lia.
Qed.

(** X9.  The feature named [Enc_Inpatient_Ratio] is [1] when there is a
    tracked encounter and every tracked encounter is inpatient, and [0] in
    every other case. *)
Theorem inpatient_ratio_feature_is_0_or_1
    (self : GetEncountersFeaturesTransformer) (empi : string) :
  let tracked := tracked_encounters self empi in
  exists block average extra,
    get_encounters_features self empi =
    block ++
    [ if negb (bool_decide (tracked = [])) && forallb is_inpatient tracked
      then 1 else 0;
      average; extra ].
Proof.
  intros tracked. rewrite get_encounters_features_eq. fold tracked.
  assert (inpatient_ratio tracked =
          if negb (bool_decide (tracked = [])) && forallb is_inpatient tracked
          then 1 else 0) as ->.
  { rewrite inpatient_ratio_floor, inpatient_count_all. f_equal. f_equal.
    unfold tracked_count. by destruct tracked. }
  destruct (only_general self).
  - by exists [], (average_LOS tracked), (average_extra_diagnoses tracked).
  - by eexists _, (average_LOS tracked), (average_extra_diagnoses tracked).
Qed.

(** X22.  The feature named [Enc_Average_Extra_Diagnoses] is the sum of the
    extra diagnoses of the tracked encounters divided (as integers) by the
    number of tracked encounters, and [0] when no encounter is tracked. *)
Theorem average_extra_diagnoses_feature
    (self : GetEncountersFeaturesTransformer) (empi : string) :
  let tracked := tracked_encounters self empi in
  exists block ratio average,
    get_encounters_features self empi =
    block ++
    [ ratio; average;
      if 0 <? Z.of_nat (length tracked)
      then sum_Z (map enc4 tracked) / Z.of_nat (length tracked)
      else 0 ].
Proof.
  intros tracked. rewrite get_encounters_features_eq. fold tracked.
  destruct (only_general self).
  - by exists [], (inpatient_ratio tracked), (average_LOS tracked).
  - by eexists _, (inpatient_ratio tracked), (average_LOS tracked).
Qed.

(** X10.  For a non-negative [max_encounters] and [only_general] false the
    vector starts with [max_encounters] triples; in each the first entry is
    [0] or [1] and the second is [0] or greater than [1]. *)
Theorem encounter_triples_invariant (self : GetEncountersFeaturesTransformer)
    (empi : string) :
  0 <= max_encounters self ->
  only_general self = false ->
  exists (triples : list (Z * Z * Z)) overall,
    get_encounters_features self empi =
      flat_map (fun t => [t.1.1; t.1.2; t.2]) triples ++ overall /\
    length triples = Z.to_nat (max_encounters self) /\
    length overall = 3%nat /\
    Forall (fun t => (t.1.1 = 0 \/ t.1.1 = 1) /\ (t.1.2 = 0 \/ 1 < t.1.2))
      triples.
Proof.
  intros HK Hgen.
  set (tracked := tracked_encounters self empi).
  set (fill := (Z.to_nat (max_encounters self) - length tracked)%nat).
  exists (map (fun enc => (if is_inpatient enc then 1 else 0,
                           if 1 <? enc3 enc then enc3 enc else 0,
                           enc4 enc)) tracked ++
          replicate fill (0, 0, 0)).
  eexists. rewrite get_encounters_features_eq, Hgen. fold tracked.
  pose proof (length_tracked_encounters self empi HK) as Hlen.
  fold tracked in Hlen.
  split_and!.
  - f_equal. rewrite flat_map_app. f_equal.
    + generalize tracked. intros l.
      induction l as [|enc rest IH]; [done|]. simpl. by rewrite IH.
    + assert (forall n, flat_map (fun t : Z * Z * Z => [t.1.1; t.1.2; t.2])
                (replicate n (0, 0, 0)) = replicate (3 * n) 0) as Hrep.
      { induction n as [|n IH]; [done|].
        replace (3 * S n)%nat with (3 + 3 * n)%nat by lia.
        simpl. by rewrite IH. }
      rewrite Hrep.
      destruct (Z.ltb_spec (num_tracked_encounters self empi)
                  (max_encounters self)).
      * rewrite zero_fill_replicate. f_equal. unfold fill. lia.
      * unfold fill. unfold num_tracked_encounters in *.
        by replace (Z.to_nat (max_encounters self) - length tracked)%nat
          with 0%nat by lia.
  - rewrite length_app, length_map, length_replicate. unfold fill.
    unfold num_tracked_encounters in Hlen. lia.
  - done.
  - apply Forall_app. split.
    + apply Forall_forall. intros t Hin.
      apply list_elem_of_fmap in Hin as (enc & -> & _). simpl. split.
      * destruct (is_inpatient enc); auto.
      * destruct (Z.ltb_spec 1 (enc3 enc)); auto.
    + apply Forall_replicate. simpl. auto.
Qed.

(** X11.  When the encounters come in ascending order of date, the tracked
    encounters are the [max_encounters] latest of all the encounters dated
    before the operation, latest first. *)
Theorem tracked_encounters_sorted (self : GetEncountersFeaturesTransformer)
    (empi : string) :
  let anchor := get_operation_date (get_patient_by_EMPI empi) in
  StronglySorted (fun a b => enc0 a <= enc0 b) (get_encounters empi) ->
  0 <= max_encounters self ->
  tracked_encounters self empi =
  take (Z.to_nat (max_encounters self))
    (reverse (List.filter (fun enc => enc0 enc <? anchor)
                (get_encounters empi))).
Proof.
  intros anchor Hsorted HK. rewrite tracked_encounters_nonneg by done.
  rewrite encounters_before_prefix. by rewrite before_prefix_sorted.
Qed.

Lemma before_prefix_stop anchor pre enc post :
  Forall (fun x => enc0 x < anchor) pre -> anchor <= enc0 enc ->
  before_prefix anchor (pre ++ enc :: post) = pre.
Proof.
  intros Hpre Hge. induction Hpre as [|x pre Hx _ IH]; simpl.
  - by destruct (Z.ltb_spec (enc0 enc) anchor); [lia|].
  - destruct (Z.ltb_spec (enc0 x) anchor); [|lia]. by rewrite IH.
Qed.

(** X12.  The scan stops at the first encounter that is not dated before
    the operation: whatever follows it, dated before the operation or not,
    is not looked at. *)
Theorem encounters_after_first_late_ignored (empi : string)
    (pre : list Encounter) (enc : Encounter) (post : list Encounter) :
  let anchor := get_operation_date (get_patient_by_EMPI empi) in
  get_encounters empi = pre ++ enc :: post ->
  Forall (fun x => enc0 x < anchor) pre ->
  anchor <= enc0 enc ->
  encounters_before empi = pre /\
  forall self,
    tracked_encounters self empi =
    py_slice_to (reverse pre)
      (Z.min (max_encounters self) (Z.of_nat (length pre))).
Proof.
  intros anchor Henc Hpre Hge.
  assert (encounters_before empi = pre) as Hb.
  { rewrite encounters_before_prefix, Henc. by apply before_prefix_stop. }
  split; [done|]. intros self.
  unfold tracked_encounters, num_tracked_encounters. by rewrite Hb.
Qed.

(** X13.  With [max_encounters = 0] no encounter is tracked and the three
    overall features are [0] for every patient, in both modes. *)
Theorem no_tracked_encounters_all_zero
    (self : GetEncountersFeaturesTransformer) (empi : string) :
  max_encounters self = 0 ->
  get_encounters_features self empi = [0; 0; 0].
Proof.
  intros HK.
  assert (tracked_encounters self empi = []) as Ht.
  { rewrite tracked_encounters_nonneg by lia. by rewrite HK. }
  rewrite get_encounters_features_eq, Ht.
  assert ((num_tracked_encounters self empi <? max_encounters self) = false)
    as ->.
  { apply Z.ltb_ge. unfold num_tracked_encounters. lia. }
  by destruct (only_general self).
Qed.

(** ** Further properties of the tf-idf stage *)

Lemma py_map_const {A B} (c : B) (l : list A) :
  py_map (fun _ => Ok c) l = Ok (replicate (length l) c).
Proof. induction l as [|a l IH]; [done|]. simpl. by rewrite IH. Qed.

Lemma feature_names_fitted self f :
  tfidf self = Some f ->
  MultiDocTfidfTransformer_get_feature_names self =
  Ok (concat (replicate (Z.to_nat (vec_size self)) (vocabulary f))).
Proof.
  intros Hf. unfold MultiDocTfidfTransformer_get_feature_names, py_range_len.
  rewrite Hf, py_map_const, length_seq. done.
Qed.

Lemma transform_one_fitted self f x :
  tfidf self = Some f ->
  transform_one self x =
  Ok (concat (map (fun doc => map (fun term => tfidf_weight f term doc)
                                  (vocabulary f)) x)).
Proof. intros Hf. unfold transform_one, tfidf_transform. by rewrite Hf. Qed.

Lemma zip_map_r {A B} (g : A -> B) (l : list A) :
  zip l (map g l) = map (fun a => (a, g a)) l.
Proof. induction l as [|a l IH]; [done|]. simpl. by rewrite IH. Qed.

(** X14.  For a fitted transformer and a subject with [vec_size] document
    slots the feature names line up with the output: there are as many
    names as entries, and the entry under a name is the weight of that
    vocabulary term in one of the subject's documents, document by
    document. *)
Theorem tfidf_names_align (X : list (list string))
    (self : MultiDocTfidfTransformer) (x : list string) :
  fit MultiDocTfidfTransformer_init X = Ok self ->
  Z.of_nat (length x) = vec_size self ->
  exists f names v,
    tfidf self = Some f /\
    MultiDocTfidfTransformer_get_feature_names self = Ok names /\
    transform_one self x = Ok v /\
    length names = length v /\
    zip names v =
      concat (map (fun doc =>
                     map (fun term => (term, tfidf_weight f term doc))
                       (vocabulary f)) x).
Proof.
  intros Hfit Hlen. apply fit_inv in Hfit as (x0 & _ & _ & Hf).
  eexists _, _, _. split; [exact Hf|].
  split; [by apply feature_names_fitted|].
  split; [by apply transform_one_fitted|].
  rewrite <- Hlen, Nat2Z.id.
  set (vocab := vocabulary (tfidf_fit (map (py_join nlnl) X))).
  set (w := tfidf_weight (tfidf_fit (map (py_join nlnl) X))).
  assert (forall l : list string,
          zip (concat (replicate (length l) vocab))
              (concat (map (fun doc => map (fun term => w term doc) vocab) l))
          = concat (map (fun doc => map (fun term => (term, w term doc)) vocab)
                      l)) as Hzip.
  { intros l. induction l as [|doc l IH]; [done|].
    cbn [length replicate concat map].
    rewrite zip_with_app by (by rewrite length_map).
    rewrite IH. f_equal. apply (zip_map_r (fun term => w term doc)). }
  specialize (Hzip x).
  split; [|exact Hzip].
  apply (f_equal length) in Hzip. rewrite length_zip in Hzip.
  assert (forall n, length (concat (replicate n vocab)) =
                    (n * length vocab)%nat) as Hn.
  { induction n as [|n IH]; [done|]. simpl. rewrite length_app, IH. lia. }
  rewrite Hn. rewrite (length_concat_rows _ (length vocab)).
  - rewrite length_map. lia.
  - apply Forall_forall. intros row Hin.
    apply list_elem_of_fmap in Hin as (doc & -> & _). apply length_map.
Qed.

Lemma latest_notes_transform_ok ln empis :
  0 <= max_notes ln ->
  exists X,
    GetLatestNotesTransformer_transform ln empis = Ok X /\
    Forall2 (fun empi x => get_latest_concatenated_notes ln empi = Ok x)
      empis X /\
    Forall (fun x => length x = Z.to_nat (max_notes ln)) X.
Proof.
  intros HK. unfold GetLatestNotesTransformer_transform.
  induction empis as [|empi empis (X & HX & Hall & Hlen)].
  - exists []. by split_and!; constructor.
  - pose proof (get_latest_concatenated_notes_nonneg ln empi HK) as Hx.
    simpl in Hx. eexists (_ :: X). cbn [py_map]. rewrite Hx. simpl.
    rewrite HX. simpl. split; [done|]. split; constructor; try done.
    rewrite length_app, length_take, length_replicate. lia.
Qed.

(** X15.  In the pipeline that feeds the arrays of latest notes of a
    training list (non-negative [max_notes]) to the tf-idf stage: when
    [fit] succeeds on them, [vec_size] is [max_notes], and for every
    patient the tf-idf vector of the patient's array of latest notes has
    as many entries as there are feature names. *)
Theorem latest_notes_tfidf_pipeline (ln : GetLatestNotesTransformer)
    (train : list string) (empi : string) (X : list (list string))
    (self : MultiDocTfidfTransformer) :
  0 <= max_notes ln ->
  GetLatestNotesTransformer_transform ln train = Ok X ->
  fit MultiDocTfidfTransformer_init X = Ok self ->
  vec_size self = max_notes ln /\
  exists x v names,
    get_latest_concatenated_notes ln empi = Ok x /\
    transform_one self x = Ok v /\
    MultiDocTfidfTransformer_get_feature_names self = Ok names /\
    length v = length names.
Proof.
  intros HK HX Hfit.
  destruct (latest_notes_transform_ok ln train HK) as (X' & HX' & _ & Hlen).
  rewrite HX in HX'. injection HX' as <-.
  apply fit_inv in Hfit as (x0 & Hx0 & Hvec & Hf).
  assert (length x0 = Z.to_nat (max_notes ln)) as Hlen0.
  { rewrite Forall_forall in Hlen. apply Hlen.
    by eapply list_elem_of_lookup_2. }
  pose proof (get_latest_concatenated_notes_nonneg ln empi HK) as Hx.
  simpl in Hx.
  set (x := take _ _ ++ _) in Hx.
  assert (length x = Z.to_nat (max_notes ln)) as Hlenx.
  { unfold x. rewrite length_app, length_take, length_replicate. lia. }
  set (f := tfidf_fit (map (py_join nlnl) X)) in Hf.
  split; [lia|].
  exists x. eexists _, _.
  split; [exact Hx|].
  split; [by apply (transform_one_fitted self f)|].
  split; [by apply (feature_names_fitted self f)|].
  assert (forall n, length (concat (replicate n (vocabulary f))) =
                    (n * length (vocabulary f))%nat) as Hn.
  { induction n as [|n IH]; [done|]. simpl. rewrite length_app, IH. lia. }
  rewrite Hn. rewrite (length_concat_rows _ (length (vocabulary f))).
  - rewrite length_map. lia.
  - apply Forall_forall. intros row Hin.
    apply list_elem_of_fmap in Hin as (doc & -> & _). apply length_map.
Qed.

Lemma string_length_app (a b : string) :
  String.length (a +:+ b) = (String.length a + String.length b)%nat.
Proof.
  induction a as [|c a IH]; [done|].
  change (S (String.length (a +:+ b)) = S (String.length a + String.length b)).
  by rewrite IH.
Qed.

(** X16.  The text [concatenate_notes] builds has the characters of the
    documents and two line feeds between each two neighbours: its length is
    the sum of the lengths of the documents plus twice the number of
    documents less one. *)
Theorem concatenate_notes_length (docs : list string) :
  String.length (concatenate_notes docs) =
  (sum_list (map String.length docs) + 2 * (length docs - 1))%nat.
Proof.
  unfold concatenate_notes, py_join.
  induction docs as [|doc [|doc' rest] IH]; [done|simpl; lia|].
  change (String.concat nlnl (doc :: doc' :: rest))
    with (doc +:+ nlnl +:+ String.concat nlnl (doc' :: rest)).
  rewrite !string_length_app, IH. simpl. lia.
Qed.

(** ** [SexTransformer.get_sex] *)

(** X17.  [get_sex] tests the key ['Sex'] and reads the key ['Gender']: it
    raises [KeyError] exactly for a record with ['Sex'] and without
    ['Gender']; it returns [1] exactly for a record with ['Sex'] whose
    ['Gender'] is the text ['Female'] followed by carriage return and line
    feed; in every other case it returns [0], in particular for every
    record without ['Sex'], whatever its ['Gender']. *)
Theorem get_sex_spec (empi : string) :
  let person := get_patient_record empi in
  let female := PyStr ("Female" +:+ crlf) in
  (forall key,
     get_sex empi = KeyError key <->
     key = "Gender"%string /\ is_Some (person !! "Sex"%string) /\
     person !! "Gender"%string = None) /\
  (get_sex empi = Return 1 <->
     is_Some (person !! "Sex"%string) /\
     person !! "Gender"%string = Some female) /\
  (get_sex empi = Return 0 <->
     person !! "Sex"%string = None \/
     exists v, person !! "Gender"%string = Some v /\ v <> female).
Proof.
  intros person female. unfold get_sex. fold person.
  assert (forall v, py_eq_str v ("Female" +:+ crlf) = true <-> v = female)
    as Heq.
  { intros [s'|docs]; simpl; [|done].
    rewrite String.eqb_eq. unfold female. split; congruence. }
  destruct (person !! "Sex"%string) as [sex|];
    [destruct (person !! "Gender"%string) as [v|]|].
  - specialize (Heq v).
    destruct (py_eq_str v ("Female" +:+ crlf)) eqn:Hv; simpl.
    + assert (v = female) as -> by (by apply Heq). split_and!.
      * intros key. split; [done|]. by intros (_ & _ & ?).
      * split; [by eauto|done].
      * split; [done|]. intros [?|(v & [= <-] & Hne)]; done.
    + assert (v <> female) as Hne by (intros ?; by apply Heq in H).
      split_and!.
      * intros key. split; [done|]. by intros (_ & _ & ?).
      * split; [done|]. intros [_ [= ?]]. done.
      * split; [|done]. intros _. right. by exists v.
  - split_and!.
    + intros key. split; [by intros [= <-]; eauto|]. by intros (-> & _ & _).
    + split; [done|]. by intros [_ ?].
    + split; [done|]. intros [?|(v & ? & _)]; done.
  - split_and!.
    + intros key. split; [done|]. intros (_ & [? ?] & _). done.
    + split; [done|]. intros [[? ?] _]. done.
    + split; [by left|done].
Qed.

(** ** The dictionaries of the latest lab flags *)

Lemma latest_flag_step_lookup mark d lab x flag lab' :
  latest_flag_step mark d (lab, (x, flag)) !! lab' =
  if decide (lab = lab')
  then Some (if decide (flag = mark) then 1 else 0)
  else d !! lab'.
Proof.
  unfold latest_flag_step.
  destruct (String.eqb_spec flag mark); rewrite lookup_insert;
    repeat case_decide; done.
Qed.

Lemma fold_latest_flag_lookup mark (items : list (string * (latest0 * string)))
    d lab :
  NoDup (items.*1) ->
  fold_left (latest_flag_step mark) items d !! lab =
  match (list_to_map items : gmap string (latest0 * string)) !! lab with
  | Some (_, flag) => Some (if decide (flag = mark) then 1 else 0)
  | None => d !! lab
  end.
Proof.
  revert d. induction items as [|[k [x flag]] items IH]; intros d Hnd.
  - done.
  - apply NoDup_cons in Hnd as [Hk Hnd]. cbn [fold_left list_to_map foldr].
    rewrite IH by done. simpl in Hk.
    rewrite lookup_insert, latest_flag_step_lookup. cbn [fst snd].
    destruct (decide (k = lab)) as [->|Hne].
    + by rewrite (not_elem_of_list_to_map_1 _ _ Hk).
    + by destruct (list_to_map items !! lab) as [[? ?]|].
Qed.

(** X18.  The dictionaries of [get_labs_latest_high] and
    [get_labs_latest_low] have the tests of the latest results as keys; a
    test has [1] in the first exactly when its latest flag is ['H'], [1] in
    the second exactly when it is ['L'], and [0] otherwise, so no test has
    [1] in both. *)
Theorem latest_high_low_spec (empi lab : string) :
  let anchor := get_operation_date (get_patient_by_EMPI empi) in
  let labs_latest := (get_labs_before_date empi anchor).2 in
  get_labs_latest_high empi !! lab =
    (fun entry => if decide (entry.2 = "H"%string) then 1 else 0) <$>
      labs_latest !! lab /\
  get_labs_latest_low empi !! lab =
    (fun entry => if decide (entry.2 = "L"%string) then 1 else 0) <$>
      labs_latest !! lab /\
  ~ (get_labs_latest_high empi !! lab = Some 1 /\
     get_labs_latest_low empi !! lab = Some 1).
Proof.
  intros anchor labs_latest.
  assert (forall mark,
    fold_left (latest_flag_step mark) (map_to_list labs_latest) ∅ !! lab =
    (fun entry => if decide (entry.2 = mark) then 1 else 0) <$>
      labs_latest !! lab) as Hfold.
  { intros mark.
    rewrite fold_latest_flag_lookup by apply NoDup_fst_map_to_list.
    rewrite list_to_map_to_list, lookup_empty.
    by destruct (labs_latest !! lab) as [[? ?]|]. }
  unfold get_labs_latest_high, get_labs_latest_low.
  fold anchor labs_latest. rewrite !Hfold. split_and!; [done..|].
  destruct (labs_latest !! lab) as [[x flag]|]; simpl; [|by intros [? _]].
  repeat case_decide; intros [? ?]; simplify_eq.
Qed.

(** ** Errors and values of [get_labs_history] *)

Lemma threshold_loop_raise thresholds lab flags indices d :
  Forall (fun i => (i < length thresholds)%nat) indices ->
  Exists (fun i => (length flags <= i)%nat) indices ->
  threshold_loop thresholds lab flags indices d = Raise IndexError.
Proof.
  intros Hall. revert d.
  induction Hall as [|i indices Ht _ IH]; intros d Hex.
  - by apply Exists_nil in Hex.
  - cbn [threshold_loop]. unfold py_index.
    apply lookup_lt_is_Some in Ht as [t Ht]. rewrite Ht.
    destruct (flags !! i) as [flag|] eqn:Hf; [|done].
    simpl. apply IH.
    apply Exists_cons in Hex as [Hge|Hex]; [|done].
    apply lookup_lt_Some in Hf. lia.
Qed.

Lemma lab_loop_raise thresholds items d :
  Exists (fun item => (length item.2 < length thresholds)%nat) items ->
  lab_loop thresholds items d = Raise IndexError.
Proof.
  intros Hex. revert d.
  induction Hex as [[lab flags] items Hshort|[lab flags] items _ IH];
    intros d; cbn [lab_loop].
  - rewrite threshold_loop_raise; [done| |].
    + apply Forall_forall. intros i Hi. apply elem_of_seq in Hi. lia.
    + apply Exists_exists. exists (length flags). split; [|done].
      apply elem_of_seq. simpl in Hshort. lia.
  - destruct (threshold_loop thresholds lab flags
                (seq 0 (length thresholds)) d) as [d'|e] eqn:Hloop.
    + simpl. apply IH.
    + simpl. f_equal.
      destruct (decide (length thresholds <= length flags)%nat) as [Hle|Hgt].
      * rewrite threshold_loop_writes in Hloop; [done|].
        apply Forall_forall. intros i Hi. apply elem_of_seq in Hi. lia.
      * rewrite threshold_loop_raise in Hloop; [congruence| |].
        -- apply Forall_forall. intros i Hi. apply elem_of_seq in Hi. lia.
        -- apply Exists_exists. exists (length flags). split; [|done].
           apply elem_of_seq. lia.
Qed.

(** The loop either raises [IndexError], when a lab has fewer flags than
    there are thresholds, or makes all its assignments. *)
Lemma lab_loop_cases thresholds items d :
  (Exists (fun item => (length item.2 < length thresholds)%nat) items /\
   lab_loop thresholds items d = Raise IndexError) \/
  (Forall (fun item => (length thresholds <= length item.2)%nat) items /\
   lab_loop thresholds items d =
   Ok (foldl assign d (history_writes thresholds items))).
Proof.
  destruct (decide (Forall
    (fun item : string * list string =>
       (length thresholds <= length item.2)%nat) items)) as [Hall|Hnot].
  - right. split; [done|]. by apply lab_loop_writes.
  - left. apply not_Forall_Exists in Hnot; [|apply _].
    assert (Exists (fun item : string * list string =>
              (length item.2 < length thresholds)%nat) items) as Hex.
    { eapply Exists_impl; [exact Hnot|]. simpl. intros item ?. lia. }
    split; [done|]. by apply lab_loop_raise.
Qed.

(** X19.  [get_labs_history] raises [IndexError] exactly when the lab
    history has a lab with fewer flags than there are thresholds; it
    returns a dictionary otherwise. *)
Theorem get_labs_history_index_error (self : GetLabsHistoryDictTransformer)
    (empi : string) :
  let anchor := get_operation_date (get_patient_by_EMPI empi) in
  let thresholds := time_thresholds_months self in
  let lab_history := get_lab_history_before_date empi anchor thresholds in
  (get_labs_history self empi = Raise IndexError <->
   exists lab flags,
     lab_history !! lab = Some flags /\
     (length flags < length thresholds)%nat) /\
  (get_labs_history self empi = Raise IndexError \/
   exists d, get_labs_history self empi = Ok d).
Proof.
  intros anchor thresholds lab_history.
  unfold get_labs_history. fold anchor thresholds lab_history.
  destruct (lab_loop_cases thresholds (map_to_list lab_history) ∅)
    as [[Hex ->]|[Hall ->]].
  - split; [|by left]. split; [|done]. intros _.
    apply Exists_exists in Hex as ([lab flags] & Hin & Hshort).
    exists lab, flags. by apply elem_of_map_to_list in Hin.
  - split; [|by right; eexists]. split; [done|].
    intros (lab & flags & Hl & Hshort).
    apply elem_of_map_to_list in Hl. rewrite Forall_forall in Hall.
    apply Hall in Hl. simpl in Hl. lia.
Qed.

Lemma get_labs_history_writes self empi d :
  get_labs_history self empi = Ok d ->
  let thresholds := time_thresholds_months self in
  let lab_history :=
    get_lab_history_before_date empi
      (get_operation_date (get_patient_by_EMPI empi)) thresholds in
  forall key v,
    d !! key = Some v ->
    (key, v) ∈ history_writes thresholds (map_to_list lab_history).
Proof.
  intros Hd thresholds lab_history key v Hl. unfold get_labs_history in Hd.
  fold thresholds lab_history in Hd.
  destruct (lab_loop_cases thresholds (map_to_list lab_history) ∅)
    as [[_ Heq]|[_ Heq]]; rewrite Heq in Hd; [done|].
  injection Hd as <-. rewrite foldl_assign_list_to_map in Hl.
  apply elem_of_list_to_map_2 in Hl. by apply elem_of_reverse.
Qed.

(** X20.  Every value of a dictionary returned by [get_labs_history] is [0]
    or [1], and its key is made of a lab of the history, the mark, and a
    threshold of the list. *)
Theorem get_labs_history_values (self : GetLabsHistoryDictTransformer)
    (empi : string) (d : gmap string Z) (key : string) (v : Z) :
  let anchor := get_operation_date (get_patient_by_EMPI empi) in
  let thresholds := time_thresholds_months self in
  let lab_history := get_lab_history_before_date empi anchor thresholds in
  get_labs_history self empi = Ok d ->
  d !! key = Some v ->
  (v = 0 \/ v = 1) /\
  exists lab t,
    is_Some (lab_history !! lab) /\ t ∈ thresholds /\
    (key = lab +:+ "_H_" +:+ py_str t \/ key = lab +:+ "_L_" +:+ py_str t).
Proof.
  intros anchor thresholds lab_history Hd Hl.
  apply (get_labs_history_writes self empi d Hd) in Hl.
  apply elem_of_history_writes in Hl
    as (lab & flags & i & t & flag & Hin & Ht & Hf & Hkv).
  apply elem_of_map_to_list in Hin. split.
  - destruct Hkv as [[_ ->]|[_ ->]]; unfold flag_value;
      destruct (String.eqb _ _); auto.
  - exists lab, t. split; [by eexists|].
    split; [by eapply list_elem_of_lookup_2|].
    destruct Hkv as [[-> _]|[-> _]]; auto.
Qed.

(** X21.  With pairwise distinct thresholds no lab has [1] under both its
    [_H_] key and its [_L_] key of the same threshold. *)
Theorem get_labs_history_exclusive (self : GetLabsHistoryDictTransformer)
    (empi : string) (d : gmap string Z) (lab : string) (t : Z) :
  NoDup (time_thresholds_months self) ->
  get_labs_history self empi = Ok d ->
  ~ (d !! (lab +:+ "_H_" +:+ py_str t) = Some 1 /\
     d !! (lab +:+ "_L_" +:+ py_str t) = Some 1).
Proof.
  intros Hnd Hd [HH HL].
  apply (get_labs_history_writes self empi d Hd) in HH, HL.
  apply elem_of_history_writes in HH
    as (lab1 & flags1 & i1 & t1 & flag1 & Hin1 & Ht1 & Hf1 & Hkv1).
  apply elem_of_history_writes in HL
    as (lab2 & flags2 & i2 & t2 & flag2 & Hin2 & Ht2 & Hf2 & Hkv2).
  apply elem_of_map_to_list in Hin1, Hin2.
  destruct Hkv1 as [[Hk1 Hv1]|[Hk1 _]].
  2: { apply (history_key_inj _ _ "H" "L") in Hk1; [|done..].
       by destruct Hk1 as (_ & ? & _). }
  destruct Hkv2 as [[Hk2 _]|[Hk2 Hv2]].
  1: { apply (history_key_inj _ _ "L" "H") in Hk2; [|done..].
       by destruct Hk2 as (_ & ? & _). }
  apply (history_key_inj _ _ "H" "H") in Hk1 as (<- & _ & <-); [|done..].
  apply (history_key_inj _ _ "L" "L") in Hk2 as (<- & _ & <-); [|done..].
  assert (i1 = i2) as <- by (by eapply NoDup_lookup).
  assert (flags1 = flags2) as <- by congruence.
  assert (flag1 = flag2) as <- by congruence.
  unfold flag_value in Hv1, Hv2.
  destruct (String.eqb_spec flag1 "H"), (String.eqb_spec flag1 "L");
    congruence.
Qed.

End Transformers.

(** * The properties on the sample patient *)

(** The sample patient has three notes dated before the operation, among
    them two of the same day, one note without a date and one note after
    the operation. *)
Example sample_concatenated_notes :
  get_concatenated_notes sample_loader sample_operation_date sample_date_key
    sample_parse_date {| cn_type := "Car"; look_back_months := None |} "E1" =
  py_join nlnl ["first"; "second"; "third"]%string.
Proof. vm_compute. reflexivity. Qed.

(** A lookback of one month keeps the notes of ten days before the
    operation and drops the note of a hundred days before. *)
Example sample_one_month_lookback :
  get_concatenated_notes sample_loader sample_operation_date sample_date_key
    sample_parse_date {| cn_type := "Car"; look_back_months := Some 1 |} "E1" =
  py_join nlnl ["second"; "third"]%string.
Proof. vm_compute. reflexivity. Qed.

(** C2, as stated, fails for a lookback of [0]: the specification's wording
    selects no note (no note dated before the operation is at most zero
    seconds before it), the code joins all three. *)
Lemma lookback_stated_counterexample :
  get_concatenated_notes sample_loader sample_operation_date sample_date_key
    sample_parse_date {| cn_type := "Car"; look_back_months := Some 0 |} "E1"
  <>
  concatenated_notes_stated sample_loader sample_operation_date
    sample_date_key sample_parse_date
    {| cn_type := "Car"; look_back_months := Some 0 |} "E1".
Proof. intros H. vm_compute in H. discriminate H. Qed.

Lemma zero_lookback_witness :
  get_concatenated_notes sample_loader sample_operation_date sample_date_key
    sample_parse_date {| cn_type := "Car"; look_back_months := Some 0 |} "E1" =
  get_concatenated_notes sample_loader sample_operation_date sample_date_key
    sample_parse_date {| cn_type := "Car"; look_back_months := None |} "E1".
Proof.
  apply (zero_lookback_is_no_lookback sample_loader sample_operation_date
           sample_date_key sample_parse_date
           {| cn_type := "Car"; look_back_months := Some 0 |} "E1").
  reflexivity.
Defined.

Lemma fixed_width_output_witness :
  get_latest_concatenated_notes sample_loader sample_operation_date
    sample_date_key sample_parse_date
    {| ln_type := "Car"; max_notes := 5 |} "E1" =
  Ok ["second"; "third"; "first"; ""; ""]%string /\
  exists overall,
    get_encounters_features sample_loader sample_operation_date
      sample_encounters {| max_encounters := 7; only_general := false |}
      "E1" =
    [1; 0; 1;  1; 3; 3;  0; 0; 0;  1; 4; 2;  0; 0; 1;
     0; 0; 0;  0; 0; 0] ++ overall /\
    length overall = 3%nat.
Proof.
  destruct (fixed_width_output sample_loader sample_operation_date
              sample_date_key sample_parse_date sample_encounters
              {| ln_type := "Car"; max_notes := 5 |}
              {| max_encounters := 7; only_general := false |} "E1")
    as [[Hnotes _] (overall & Henc & _ & Hlen)].
  - simpl. lia.
  - simpl. lia.
  - reflexivity.
  - split; [exact Hnotes|]. exists overall. split; [exact Henc|exact Hlen].
Defined.

(** Five encounters before the operation and [max_encounters = 3]: the
    three latest encounters, latest first, no filling, then the three
    overall features. *)
Example sample_three_encounters :
  get_encounters_features sample_loader sample_operation_date
    sample_encounters {| max_encounters := 3; only_general := false |} "E1" =
  [1; 0; 1;  1; 3; 3;  0; 0; 0] ++ [0; 1; 1].
Proof. vm_compute. reflexivity. Qed.

(** C6.  Of the three tracked encounters of the sample patient two are
    inpatient, and the inpatient ratio the code returns is [0], the
    integer quotient of 2 by 3, not the quotient 2/3. *)
Theorem inpatient_ratio_truncated :
  let self := {| max_encounters := 3; only_general := true |} in
  let tracked :=
    tracked_encounters sample_loader sample_operation_date sample_encounters
      self "E1" in
  inpatient_count tracked = 2 /\ tracked_count tracked = 3 /\
  get_encounters_features sample_loader sample_operation_date
    sample_encounters self "E1" = [0; 1; 1] /\
  ~ (inject_Z 0 == 2 # 3)%Q.
Proof. vm_compute. split_and!; try reflexivity. discriminate. Qed.

(** C5.  The tracked encounters of the sample patient have lengths of stay
    greater than one summing to [3] and two inpatient encounters among
    them; the average length of stay the code returns is [1], the integer
    quotient of 3 by 2, not the quotient 3/2. *)
Theorem average_LOS_truncated :
  let self := {| max_encounters := 3; only_general := false |} in
  let tracked :=
    tracked_encounters sample_loader sample_operation_date sample_encounters
      self "E1" in
  counted_LOS tracked = 3 /\ inpatient_count tracked = 2 /\
  get_encounters_features sample_loader sample_operation_date
    sample_encounters self "E1" !! 10%nat = Some 1 /\
  GetEncountersFeaturesTransformer_get_feature_names self !! 10%nat =
    Some "Enc_Average_LOS"%string /\
  ~ (inject_Z 1 == 3 # 2)%Q.
Proof. vm_compute. split_and!; try reflexivity. discriminate. Qed.

(** C7, as stated, fails for a subject with one document when the first
    training subject had two: the output has one entry per vocabulary
    term, not two. *)
Lemma transform_length_counterexample :
  ~ transform_length_stated Z (list string) sample_tfidf_fit
      sample_vocabulary sample_weight
      [["heart failure"; "stable"]%string] ["heart failure"%string].
Proof.
  intros H. destruct (H _ eq_refl) as (v & Hv & Hlen).
  vm_compute in Hv. injection Hv as <-. vm_compute in Hlen. discriminate Hlen.
Qed.

Lemma transform_one_length_witness :
  let self :=
    {| tfidf := Some ["heart"; "failure"; "stable"]%string; vec_size := 2 |} in
  exists rows,
    transform_one Z (list string) sample_vocabulary sample_weight self
      ["stable"; "heart failure"]%string = Ok (concat rows) /\
    Z.of_nat (length (concat rows)) = 3 * 2.
Proof.
  intros self.
  destruct (transform_one_length Z (list string) sample_tfidf_fit
              sample_vocabulary sample_weight
              [["heart failure"; "stable"]%string] self
              ["stable"; "heart failure"]%string)
    as (rows & _ & Hone & _ & _ & Hlen & _).
  - reflexivity.
  - exists rows. split; [exact Hone|exact Hlen].
Defined.

Lemma get_labs_history_witness :
  exists d,
    get_labs_history sample_loader sample_operation_date sample_lab_history
      {| time_thresholds_months := [1; 6] |} "E1" = Ok d /\
    d !! "NA_H_1"%string = Some 1 /\ d !! "NA_L_1"%string = Some 0 /\
    d !! "K_L_6"%string = Some 1.
Proof.
  destruct (get_labs_history_spec sample_loader sample_operation_date
              sample_lab_history {| time_thresholds_months := [1; 6] |} "E1")
    as (d & Hd & Hspec).
  - simpl. apply NoDup_cons. split; [|apply NoDup_singleton].
    intros Hin. apply list_elem_of_singleton in Hin. discriminate Hin.
  - simpl. unfold sample_lab_history.
    apply map_Forall_insert_2; [simpl; lia|].
    apply map_Forall_insert_2; [simpl; lia|]. apply map_Forall_empty.
  - exists d. split; [exact Hd|]. split_and!; apply Hspec.
    + exists "NA"%string, ["H"; "N"]%string, 0%nat, 1, "H"%string.
      split_and!; try reflexivity. left. split; reflexivity.
    + exists "NA"%string, ["H"; "N"]%string, 0%nat, 1, "H"%string.
      split_and!; try reflexivity. right. split; reflexivity.
    + exists "K"%string, ["L"; "L"]%string, 1%nat, 6, "L"%string.
      split_and!; try reflexivity. right. split; reflexivity.
Defined.

(** C9, as stated, fails for a test whose raw value is empty: it is in the
    lookup and has no entry in the result. *)
Lemma empty_raw_value_counterexample :
  ~ latest_lab_values_stated sample_loader sample_operation_date
      sample_recent_labs Q sample_float "E1".
Proof.
  intros H. specialize (H "NA"%string (197 * day) EmptyString eq_refl).
  vm_compute in H. discriminate H.
Qed.

(** The raw value ["12.5"] becomes the number 12.5, the raw value
    ["Positive"] is kept. *)
Example sample_latest_lab_values :
  let d :=
    get_latest_lab_values sample_loader sample_operation_date
      sample_recent_labs Q sample_float "E1" in
  d !! "HGB"%string = Some (Number (25 # 2)%Q) /\
  d !! "CULT"%string = Some (Text "Positive") /\
  d !! "NA"%string = None.
Proof. vm_compute. split_and!; reflexivity. Qed.

(** ** Further properties on the sample patient *)

Lemma latest_notes_names_match_width_witness :
  exists notes,
    get_latest_concatenated_notes sample_loader sample_operation_date
      sample_date_key sample_parse_date
      {| ln_type := "Car"; max_notes := 5 |} "E1" = Ok notes /\
    length notes =
      length (GetLatestNotesTransformer_get_feature_names
                {| ln_type := "Car"; max_notes := 5 |}) /\
    NoDup (GetLatestNotesTransformer_get_feature_names
             {| ln_type := "Car"; max_notes := 5 |}).
Proof.
  apply (latest_notes_names_match_width sample_loader sample_operation_date
           sample_date_key sample_parse_date
           {| ln_type := "Car"; max_notes := 5 |} "E1").
  simpl. lia.
Defined.

Lemma latest_notes_negative_max_witness :
  get_latest_concatenated_notes sample_loader sample_operation_date
    sample_date_key sample_parse_date
    {| ln_type := "Car"; max_notes := -1 |} "E1" =
    Ok ["second"; "third"]%string /\
  GetLatestNotesTransformer_get_feature_names
    {| ln_type := "Car"; max_notes := -1 |} = [].
Proof.
  apply (latest_notes_negative_max sample_loader sample_operation_date
           sample_date_key sample_parse_date
           {| ln_type := "Car"; max_notes := -1 |} "E1").
  simpl. lia.
Defined.

Lemma notes_missing_type_witness :
  get_concatenated_notes sample_loader sample_operation_date sample_date_key
    sample_parse_date {| cn_type := "Lno"; look_back_months := None |} "E1" =
    EmptyString /\
  get_latest_concatenated_notes sample_loader sample_operation_date
    sample_date_key sample_parse_date
    {| ln_type := "Lno"; max_notes := 2 |} "E1" =
    Ok [EmptyString; EmptyString].
Proof.
  apply (notes_missing_type sample_loader sample_operation_date
           sample_date_key sample_parse_date "Lno" None 2 "E1").
  left. reflexivity.
Defined.

Lemma lookback_windows_nested_witness :
  let window lb :=
    concatenated_notes_window sample_loader sample_operation_date
      sample_date_key sample_parse_date
      {| cn_type := "Car"; look_back_months := lb |} "E1" in
  window (Some 1) `sublist_of` window (Some 4) /\
  window (Some 4) `sublist_of` window None /\
  window None `sublist_of` dated_docs sample_date_key "Car" (sample_loader "E1").
Proof.
  apply (lookback_windows_nested sample_loader sample_operation_date
           sample_date_key sample_parse_date "Car" 1 4 "E1"); lia.
Defined.

Lemma negative_lookback_empty_witness :
  get_concatenated_notes sample_loader sample_operation_date sample_date_key
    sample_parse_date {| cn_type := "Car"; look_back_months := Some (-1) |}
    "E1" = EmptyString.
Proof.
  apply (negative_lookback_empty sample_loader sample_operation_date
           sample_date_key sample_parse_date "Car" (-1) "E1").
  lia.
Defined.

Lemma latest_notes_same_notes_witness :
  exists real,
    get_latest_concatenated_notes sample_loader sample_operation_date
      sample_date_key sample_parse_date
      {| ln_type := "Car"; max_notes := 5 |} "E1" =
      Ok (real ++ replicate (Z.to_nat 5 - length real) EmptyString) /\
    real ≡ₚ
    map free_text
      (concatenated_notes_window sample_loader sample_operation_date
         sample_date_key sample_parse_date
         {| cn_type := "Car"; look_back_months := None |} "E1").
Proof.
  apply (latest_notes_same_notes sample_loader sample_operation_date
           sample_date_key sample_parse_date "Car" 5 "E1").
  vm_compute. discriminate.
Defined.

Lemma latest_notes_head_is_closest_witness :
  exists key doc date rest,
    get_latest_concatenated_notes sample_loader sample_operation_date
      sample_date_key sample_parse_date
      {| ln_type := "Car"; max_notes := 1 |} "E1" =
      Ok (free_text doc :: rest) /\
    dated_docs sample_date_key "Car" (sample_loader "E1") !! key = Some doc /\
    sample_parse_date (doc_date doc) = Some date /\
    date < sample_operation_date (sample_loader "E1") /\
    forall doc' date',
      doc' ∈ dated_docs sample_date_key "Car" (sample_loader "E1") ->
      sample_parse_date (doc_date doc') = Some date' ->
      date' < sample_operation_date (sample_loader "E1") -> date' <= date.
Proof.
  apply (latest_notes_head_is_closest sample_loader sample_operation_date
           sample_date_key sample_parse_date
           {| ln_type := "Car"; max_notes := 1 |} "E1").
  - simpl. lia.
  - exists {| doc_date := "100"; free_text := "first" |}. split.
    + apply list_elem_of_here.
    + vm_compute. reflexivity.
Defined.

Lemma encounter_names_and_width_witness :
  let self := {| max_encounters := 3; only_general := true |} in
  let names := GetEncountersFeaturesTransformer_get_feature_names self in
  Z.of_nat (length names) = 3 * max_encounters self + 3 /\
  length (get_encounters_features sample_loader sample_operation_date
            sample_encounters self "E1") =
    if only_general self then 3%nat else length names.
Proof.
  apply (encounter_names_and_width sample_loader sample_operation_date
           sample_encounters
           {| max_encounters := 3; only_general := true |} "E1").
  simpl. lia.
Defined.

Lemma encounter_triples_invariant_witness :
  let self := {| max_encounters := 7; only_general := false |} in
  exists (triples : list (Z * Z * Z)) overall,
    get_encounters_features sample_loader sample_operation_date
      sample_encounters self "E1" =
      flat_map (fun t => [t.1.1; t.1.2; t.2]) triples ++ overall /\
    length triples = Z.to_nat (max_encounters self) /\
    length overall = 3%nat /\
    Forall (fun t => (t.1.1 = 0 \/ t.1.1 = 1) /\ (t.1.2 = 0 \/ 1 < t.1.2))
      triples.
Proof.
  apply (encounter_triples_invariant sample_loader sample_operation_date
           sample_encounters
           {| max_encounters := 7; only_general := false |} "E1").
  - simpl. lia.
  - reflexivity.
Defined.

Lemma tracked_encounters_sorted_witness :
  let self := {| max_encounters := 3; only_general := false |} in
  tracked_encounters sample_loader sample_operation_date sample_encounters
    self "E1" =
  take (Z.to_nat (max_encounters self))
    (reverse
       (List.filter
          (fun enc => enc0 enc <? sample_operation_date (sample_loader "E1"))
          (sample_encounters "E1"))).
Proof.
  apply (tracked_encounters_sorted sample_loader sample_operation_date
           sample_encounters
           {| max_encounters := 3; only_general := false |} "E1").
  - unfold sample_encounters.
    repeat constructor; vm_compute; discriminate.
  - simpl. lia.
Defined.

Lemma encounters_after_first_late_ignored_witness :
  encounters_before sample_loader sample_operation_date
    sample_unsorted_encounters "E1" =
  [ {| enc0 := 100 * day; enc1 := "Outpatient"; enc2 := 0; enc3 := 0;
       enc4 := 1 |} ].
Proof.
  apply (encounters_after_first_late_ignored sample_loader
           sample_operation_date sample_unsorted_encounters "E1"
           [ {| enc0 := 100 * day; enc1 := "Outpatient"; enc2 := 0;
                enc3 := 0; enc4 := 1 |} ]
           {| enc0 := 210 * day; enc1 := "Inpatient"; enc2 := 0; enc3 := 9;
              enc4 := 0 |}
           [ {| enc0 := 190 * day; enc1 := "Inpatient"; enc2 := 0;
                enc3 := 3; enc4 := 3 |} ]).
  - reflexivity.
  - constructor; [vm_compute; reflexivity|constructor].
  - vm_compute. discriminate.
Defined.

Lemma no_tracked_encounters_all_zero_witness :
  get_encounters_features sample_loader sample_operation_date
    sample_encounters {| max_encounters := 0; only_general := true |} "E1" =
  [0; 0; 0].
Proof.
  apply (no_tracked_encounters_all_zero sample_loader sample_operation_date
           sample_encounters
           {| max_encounters := 0; only_general := true |} "E1").
  reflexivity.
Defined.

Lemma tfidf_names_align_witness :
  let self :=
    {| tfidf := Some ["heart"; "failure"; "stable"]%string; vec_size := 2 |} in
  let x := ["stable"; "heart failure"]%string in
  exists f names v,
    tfidf (list string) self = Some f /\
    MultiDocTfidfTransformer_get_feature_names (list string)
      sample_vocabulary self = Ok names /\
    transform_one Z (list string) sample_vocabulary sample_weight self x =
      Ok v /\
    length names = length v /\
    zip names v =
      concat (map (fun doc =>
                     map (fun term => (term, sample_weight f term doc))
                       (sample_vocabulary f)) x).
Proof.
  apply (tfidf_names_align Z (list string) sample_tfidf_fit sample_vocabulary
           sample_weight [["heart failure"; "stable"]%string]
           {| tfidf := Some ["heart"; "failure"; "stable"]%string;
              vec_size := 2 |}
           ["stable"; "heart failure"]%string).
  - reflexivity.
  - reflexivity.
Defined.

Lemma latest_notes_tfidf_pipeline_witness :
  let ln := {| ln_type := "Car"; max_notes := 2 |} in
  let self :=
    {| tfidf := Some ["second"; "third"]%string; vec_size := 2 |} in
  vec_size (list string) self = max_notes ln /\
  exists x v names,
    get_latest_concatenated_notes sample_loader sample_operation_date
      sample_date_key sample_parse_date ln "E1" = Ok x /\
    transform_one Z (list string) sample_vocabulary sample_weight self x =
      Ok v /\
    MultiDocTfidfTransformer_get_feature_names (list string)
      sample_vocabulary self = Ok names /\
    length v = length names.
Proof.
  apply (latest_notes_tfidf_pipeline sample_loader sample_operation_date
           sample_date_key sample_parse_date Z (list string) sample_tfidf_fit
           sample_vocabulary sample_weight
           {| ln_type := "Car"; max_notes := 2 |} ["E1"%string] "E1"
           [["second"; "third"]%string]
           {| tfidf := Some ["second"; "third"]%string; vec_size := 2 |}).
  - simpl. lia.
  - vm_compute. reflexivity.
  - vm_compute. reflexivity.
Defined.

Lemma get_labs_history_values_witness :
  exists d,
    get_labs_history sample_loader sample_operation_date sample_lab_history
      {| time_thresholds_months := [1; 6] |} "E1" = Ok d /\
    d !! "NA_H_1"%string = Some 1 /\
    (1 = 0 \/ 1 = 1) /\
    exists lab t,
      is_Some (sample_lab_history "E1"
                 (sample_operation_date (sample_loader "E1")) [1; 6] !! lab) /\
      t ∈ [1; 6] /\
      ("NA_H_1"%string = lab +:+ "_H_" +:+ py_str t \/
       "NA_H_1"%string = lab +:+ "_L_" +:+ py_str t).
Proof.
  destruct (get_labs_history sample_loader sample_operation_date
              sample_lab_history {| time_thresholds_months := [1; 6] |} "E1")
    as [d|e] eqn:Hd; [|vm_compute in Hd; discriminate Hd].
  assert (d !! "NA_H_1"%string = Some 1) as Hl.
  { vm_compute in Hd. injection Hd as <-. vm_compute. reflexivity. }
  exists d. split; [reflexivity|]. split; [exact Hl|].
  apply (get_labs_history_values sample_loader sample_operation_date
           sample_lab_history {| time_thresholds_months := [1; 6] |} "E1"
           d "NA_H_1" 1 Hd Hl).
Defined.

Lemma get_labs_history_exclusive_witness :
  exists d,
    get_labs_history sample_loader sample_operation_date sample_lab_history
      {| time_thresholds_months := [1; 6] |} "E1" = Ok d /\
    ~ (d !! ("NA" +:+ "_H_" +:+ py_str 1) = Some 1 /\
       d !! ("NA" +:+ "_L_" +:+ py_str 1) = Some 1).
Proof.
  destruct (get_labs_history sample_loader sample_operation_date
              sample_lab_history {| time_thresholds_months := [1; 6] |} "E1")
    as [d|e] eqn:Hd; [|vm_compute in Hd; discriminate Hd].
  exists d. split; [reflexivity|].
  apply (get_labs_history_exclusive sample_loader sample_operation_date
           sample_lab_history {| time_thresholds_months := [1; 6] |} "E1"
           d "NA" 1); [|exact Hd].
  simpl. apply NoDup_cons. split; [|apply NoDup_singleton].
  intros Hin. apply list_elem_of_singleton in Hin. discriminate Hin.
Defined.

(** A gender text without the line ending counts as not female; a record
    with ['Sex'] and without ['Gender'] raises. *)
Example sample_get_sex :
  get_sex sample_record "E1" = Return 0 /\
  get_sex sample_record "E2" = KeyError "Gender".
Proof. vm_compute. split; reflexivity. Qed.
